(** * Planned changes, check rules and change slices of the Terraform core

    A shallow embedding of three pieces of the repository:
    - [internal/command/jsonformat/differ/change_slice.go] (module [Differ]),
    - [internal/terraform/eval_conditions.go] (module [Conditions]),
    - the [stackplan] planned-change catalogue (module [Stackplan]),
    followed by the properties proved about them. *)

From Stdlib Require Import ZArith Lia.
From stdpp Require Import base option list strings pretty gmap.

(** Go functions either return or panic; [Panic] carries the message. *)
Inductive outcome (A : Type) : Type :=
| Returns (a : A)
| Panics (msg : string).
Arguments Returns {A} a.
Arguments Panics {A} msg.

(** Go's [(T, error)] results. *)
Inductive result (A : Type) : Type :=
| Ok (a : A)
| Err (msg : string).
Arguments Ok {A} a.
Arguments Err {A} msg.

Definition is_ok {A} (r : result A) : bool :=
  match r with Ok _ => true | Err _ => false end.

(* ===================================================================== *)
(** ** differ.ChangeSlice *)
(* ===================================================================== *)

Module Differ.

(** [interface{}] values as they come out of the JSON plan. A slice held in
    an interface may be the nil slice, hence the [option]. *)
#[local] Unset Elimination Schemes.
Inductive generic : Type :=
| GNil
| GBool (b : bool)
| GNumber (n : Z)
| GString (s : string)
| GSlice (elems : option (list generic))
| GMap (entries : list (string * generic)).
#[local] Set Elimination Schemes.

(** [[]interface{}]: [None] is the nil slice. *)
Definition slice : Type := option (list generic).

(** Go's [len] on a slice; the nil slice has length 0. *)
Definition len (s : slice) : Z :=
  match s with
  | None => 0
  | Some l => Z.of_nat (length l)
  end.

(** Go's index expression [s[ix]]: it panics out of range, which [None]
    stands for. *)
Definition index (s : slice) (ix : Z) : option generic :=
  match s with
  | None => None
  | Some l => if (ix <? 0)%Z then None else l !! Z.to_nat ix
  end.

(** [attribute_path.Matcher] is an interface declared outside this file; the
    slice only ever asks it for the child at an index. *)
Class Matcher (M : Type) : Type := {
  GetChildWithIndex : M -> Z -> M
}.

Module Change.
Record t (M : Type) : Type := mk {
  BeforeExplicit : bool;
  AfterExplicit : bool;
  Before : generic;
  After : generic;
  Unknown : generic;
  BeforeSensitive : generic;
  AfterSensitive : generic;
  ReplacePaths : M;
  RelevantAttributes : M
}.
Arguments mk {M}.
Arguments BeforeExplicit {M}.
Arguments AfterExplicit {M}.
Arguments Before {M}.
Arguments After {M}.
Arguments Unknown {M}.
Arguments BeforeSensitive {M}.
Arguments AfterSensitive {M}.
Arguments ReplacePaths {M}.
Arguments RelevantAttributes {M}.
End Change.

Module ChangeSlice.
Record t (M : Type) : Type := mk {
  Before : slice;
  After : slice;
  Unknown : slice;
  BeforeSensitive : slice;
  AfterSensitive : slice;
  ReplacePaths : M;
  RelevantAttributes : M
}.
Arguments mk {M}.
Arguments Before {M}.
Arguments After {M}.
Arguments Unknown {M}.
Arguments BeforeSensitive {M}.
Arguments AfterSensitive {M}.
Arguments ReplacePaths {M}.
Arguments RelevantAttributes {M}.
End ChangeSlice.

(** [genericToSlice]: the type assertion [generic.([]interface{})]. *)
Definition genericToSlice (g : generic) : slice :=
  match g with
  | GSlice concrete => concrete
  | _ => None
  end.

(** [getFromGenericSlice]; the outer [option] is the index expression's. *)
Definition getFromGenericSlice (g : slice) (ix : Z) : option (generic * bool) :=
  match g with
  | None => Some (GNil, false)
  | Some _ =>
      if ((ix <? 0) || (ix >=? len g))%Z then Some (GNil, false)
      else v ← index g ix; Some (v, true)
  end.

Section WithMatcher.
Context {M : Type} `{Matcher M}.

Definition asSlice (change : Change.t M) : ChangeSlice.t M :=
  {| ChangeSlice.Before := genericToSlice (Change.Before change);
     ChangeSlice.After := genericToSlice (Change.After change);
     ChangeSlice.Unknown := genericToSlice (Change.Unknown change);
     ChangeSlice.BeforeSensitive := genericToSlice (Change.BeforeSensitive change);
     ChangeSlice.AfterSensitive := genericToSlice (Change.AfterSensitive change);
     ChangeSlice.ReplacePaths := Change.ReplacePaths change;
     ChangeSlice.RelevantAttributes := Change.RelevantAttributes change |}.

(** [mostRelevantIx] as [getChild] computes it. *)
Definition mostRelevantIx (s : ChangeSlice.t M) (beforeIx afterIx : Z) : Z :=
  if ((beforeIx <? 0) || (beforeIx >=? len (ChangeSlice.Before s)))%Z
  then afterIx else beforeIx.

Definition getChild (s : ChangeSlice.t M) (beforeIx afterIx : Z)
  : option (Change.t M) :=
  '(before, beforeExplicit) ← getFromGenericSlice (ChangeSlice.Before s) beforeIx;
  '(after, afterExplicit) ← getFromGenericSlice (ChangeSlice.After s) afterIx;
  '(unknown, _) ← getFromGenericSlice (ChangeSlice.Unknown s) afterIx;
  '(beforeSensitive, _) ← getFromGenericSlice (ChangeSlice.BeforeSensitive s) beforeIx;
  '(afterSensitive, _) ← getFromGenericSlice (ChangeSlice.AfterSensitive s) afterIx;
  let mostRelevantIx := mostRelevantIx s beforeIx afterIx in
  Some {| Change.BeforeExplicit := beforeExplicit;
          Change.AfterExplicit := afterExplicit;
          Change.Before := before;
          Change.After := after;
          Change.Unknown := unknown;
          Change.BeforeSensitive := beforeSensitive;
          Change.AfterSensitive := afterSensitive;
          Change.ReplacePaths :=
            GetChildWithIndex (ChangeSlice.ReplacePaths s) mostRelevantIx;
          Change.RelevantAttributes :=
            GetChildWithIndex (ChangeSlice.RelevantAttributes s) mostRelevantIx |}.
End WithMatcher.

(** A matcher that remembers the indices it was asked for, innermost last:
    enough to observe which index [getChild] hands to the matcher. *)
#[global] Instance path_matcher : Matcher (list Z) := {
  GetChildWithIndex m ix := m ++ [ix]
}.

(** An index is in range of a slice. *)
Definition inRange (ix : Z) (s : slice) : Prop := (0 <= ix < len s)%Z.

#[global] Instance inRange_dec ix s : Decision (inRange ix s).
Proof. unfold inRange. apply _. Defined.

(** The index tie-break in the specification's words: the child's
    replace-path and sensitivity sub-trees all come from one index [i]. *)
Definition sourcedFrom (s : ChangeSlice.t (list Z)) (c : Change.t (list Z)) (i : Z) : Prop :=
  Change.ReplacePaths c = GetChildWithIndex (ChangeSlice.ReplacePaths s) i
  ∧ fst <$> getFromGenericSlice (ChangeSlice.BeforeSensitive s) i
      = Some (Change.BeforeSensitive c)
  ∧ fst <$> getFromGenericSlice (ChangeSlice.AfterSensitive s) i
      = Some (Change.AfterSensitive c).

(** ... from the after-index when the before-index is out of range, from the
    before-index when the after-index is out of range, and from the
    before-index when both are in range. *)
Definition tieBreakAsSpecified (s : ChangeSlice.t (list Z)) (beforeIx afterIx : Z) : Prop :=
  ∃ c, getChild s beforeIx afterIx = Some c
    ∧ (¬ inRange beforeIx (ChangeSlice.Before s) → sourcedFrom s c afterIx)
    ∧ (¬ inRange afterIx (ChangeSlice.After s) → sourcedFrom s c beforeIx)
    ∧ (inRange beforeIx (ChangeSlice.Before s) → inRange afterIx (ChangeSlice.After s) →
       sourcedFrom s c beforeIx).

(** A two-element list whose second element only is sensitive afterwards. *)
Definition twoElements : ChangeSlice.t (list Z) :=
  {| ChangeSlice.Before := Some [GString "a"; GString "b"];
     ChangeSlice.After := Some [GString "a"; GString "b"];
     ChangeSlice.Unknown := None;
     ChangeSlice.BeforeSensitive := Some [GBool false; GBool false];
     ChangeSlice.AfterSensitive := Some [GBool false; GBool true];
     ChangeSlice.ReplacePaths := [];
     ChangeSlice.RelevantAttributes := [] |}.

(** A slice decomposed from values that are not arrays. *)
Definition noElements : ChangeSlice.t (list Z) :=
  {| ChangeSlice.Before := None;
     ChangeSlice.After := None;
     ChangeSlice.Unknown := None;
     ChangeSlice.BeforeSensitive := None;
     ChangeSlice.AfterSensitive := None;
     ChangeSlice.ReplacePaths := [];
     ChangeSlice.RelevantAttributes := [] |}.

End Differ.

(* ===================================================================== *)
(** ** terraform.evalCheckRules *)
(* ===================================================================== *)

Module Conditions.

(** *** hcl and tfdiags diagnostics *)

Module hcl.
Inductive DiagnosticSeverity : Type := DiagInvalid | DiagError | DiagWarning.

(** A source range, kept opaque. *)
Definition Range : Type := string.

(** The [Expression] and [EvalContext] fields of a diagnostic only serve
    its rendering and are left out. *)
Record Diagnostic : Type := {
  Severity : DiagnosticSeverity;
  Summary : string;
  Detail : string;
  Subject : option Range
}.

Definition Diagnostics : Type := list Diagnostic.

Definition isError (d : Diagnostic) : bool :=
  match Severity d with DiagError => true | _ => false end.

(** [hcl.Diagnostics.HasErrors]. *)
Definition HasErrors (diags : Diagnostics) : bool := existsb isError diags.
End hcl.

Module tfdiags.
Inductive Severity : Type := Error | Warning | Unrecognized.

(** A diagnostic is either a wrapped hcl diagnostic or one of tfdiags' own. *)
Inductive Diagnostic : Type :=
| FromHCL (d : hcl.Diagnostic)
| Sourceless (severity : Severity) (summary detail : string).

(** [Diagnostic.Severity]: a wrapped hcl diagnostic is a warning only when
    hcl says so, anything else counts as an error. *)
Definition severityOf (d : Diagnostic) : Severity :=
  match d with
  | FromHCL h =>
      match hcl.Severity h with
      | hcl.DiagWarning => Warning
      | _ => Error
      end
  | Sourceless s _ _ => s
  end.

Definition Diagnostics : Type := list Diagnostic.

Definition isError (d : Diagnostic) : bool :=
  match severityOf d with Error => true | _ => false end.

(** [Diagnostics.HasErrors]. *)
Definition HasErrors (diags : Diagnostics) : bool := existsb isError diags.

(** [Diagnostics.Append] with an [hcl.Diagnostics] argument. *)
Definition AppendHCL (diags : Diagnostics) (more : hcl.Diagnostics) : Diagnostics :=
  diags ++ map FromHCL more.

(** [Diagnostics.Append] with a [*hcl.Diagnostic] argument. *)
Definition Append1 (diags : Diagnostics) (d : hcl.Diagnostic) : Diagnostics :=
  diags ++ [FromHCL d].

(** [Diagnostics.Append] with a [tfdiags.Diagnostics] argument. *)
Definition Append (diags more : Diagnostics) : Diagnostics := diags ++ more.

(** [Severity.ToHCL]; it panics on a severity outside the two it knows. *)
Definition ToHCL (s : Severity) : outcome hcl.DiagnosticSeverity :=
  match s with
  | Warning => Returns hcl.DiagWarning
  | Error => Returns hcl.DiagError
  | Unrecognized => Panics "unknown diagnostic severity"
  end.
End tfdiags.

(** *** The fragment of cty the check rules use *)

Module cty.
Inductive Type_ : Type :=
| Bool | String | Number | DynamicPseudoType
| Structural (name : string).

#[global] Instance Type_eq_dec : EqDecision Type_.
Proof. solve_decision. Defined.

(** Numbers are restricted to integers; values of list, map, object and
    similar types are kept opaque. *)
Inductive Raw : Type :=
| RUnknown (ty : Type_)
| RNull (ty : Type_)
| RBool (b : bool)
| RString (s : string)
| RNumber (n : Z)
| RStructural (name : string).

Record Value : Type := {
  raw : Raw;
  marks : gset string
}.

Definition BoolVal (b : bool) : Value := {| raw := RBool b; marks := ∅ |}.
Definition StringVal (s : string) : Value := {| raw := RString s; marks := ∅ |}.
Definition NumberIntVal (n : Z) : Value := {| raw := RNumber n; marks := ∅ |}.
Definition NullVal (ty : Type_) : Value := {| raw := RNull ty; marks := ∅ |}.
Definition UnknownVal (ty : Type_) : Value := {| raw := RUnknown ty; marks := ∅ |}.
Definition True_ : Value := BoolVal true.
Definition False_ : Value := BoolVal false.

Definition TypeOf (v : Value) : Type_ :=
  match raw v with
  | RUnknown ty | RNull ty => ty
  | RBool _ => Bool
  | RString _ => String
  | RNumber _ => Number
  | RStructural name => Structural name
  end.

(** Both look through marks. *)
Definition IsKnown (v : Value) : bool :=
  match raw v with RUnknown _ => false | _ => true end.
Definition IsNull (v : Value) : bool :=
  match raw v with RNull _ => true | _ => false end.

Definition Unmark (v : Value) : Value * gset string :=
  ({| raw := raw v; marks := ∅ |}, marks v).

Definition WithMarks (v : Value) (m : gset string) : Value :=
  {| raw := raw v; marks := marks v ∪ m |}.

(** [AsString] of a known, non-null string. *)
Definition AsString (v : Value) : string :=
  match raw v with RString s => s | _ => "" end.
End cty.

Module marks.
Definition Sensitive : string := "Sensitive".
End marks.

Module convert.
Import cty.

(** The primitive conversions of known, non-null values; [None] where cty
    has no conversion between the two types. *)
Definition primitive (r : Raw) (want : Type_) : option (result Raw) :=
  match r, want with
  | RBool b, String => Some (Ok (RString (if b then "true" else "false")))
  | RNumber n, String => Some (Ok (RString (pretty n)))
  | RString s, Bool =>
      Some (if decide (s = "true" ∨ s = "1") then Ok (RBool true)
            else if decide (s = "false" ∨ s = "0") then Ok (RBool false)
            else Err "a bool is required")
  | _, _ => None
  end.

Definition mismatch (want : Type_) : string :=
  match want with
  | Bool => "bool required"
  | String => "string required"
  | Number => "number required"
  | _ => "incorrect type"
  end.

(** [convert.Convert] towards [Bool] or [String]: a value of the wanted
    type is returned as it is; unknown and null values of a convertible
    type become unknown and null values of the wanted type; marks are
    carried over. *)
Definition Convert (v : Value) (want : Type_) : result Value :=
  if decide (TypeOf v = want) then Ok v
  else
    let convertible :=
      match TypeOf v, want with
      | DynamicPseudoType, _ => true
      | Bool, String | Number, String | String, Bool | String, Number => true
      | _, _ => false
      end in
    if negb convertible then Err (mismatch want)
    else
      match raw v with
      | RUnknown _ => Ok {| raw := RUnknown want; marks := marks v |}
      | RNull _ => Ok {| raw := RNull want; marks := marks v |}
      | r =>
          match primitive r want with
          | Some (Ok r') => Ok {| raw := r'; marks := marks v |}
          | Some (Err e) => Err e
          | None => Err (mismatch want)
          end
      end.
End convert.

(** *** Addresses *)

Module addrs.
Inductive CheckRuleType : Type :=
| InvalidCondition
| ResourcePrecondition
| ResourcePostcondition
| OutputPrecondition
| CheckDataResource
| CheckAssertion
| InputValidation.

#[global] Instance CheckRuleType_eq_dec : EqDecision CheckRuleType.
Proof. solve_decision. Defined.

#[global] Instance CheckRuleType_countable : Countable CheckRuleType.
Proof.
  refine (inj_countable'
    (fun t => match t with
              | InvalidCondition => 0 | ResourcePrecondition => 1
              | ResourcePostcondition => 2 | OutputPrecondition => 3
              | CheckDataResource => 4 | CheckAssertion => 5
              | InputValidation => 6 end)
    (fun n => match n with
              | 0 => InvalidCondition | 1 => ResourcePrecondition
              | 2 => ResourcePostcondition | 3 => OutputPrecondition
              | 4 => CheckDataResource | 5 => CheckAssertion
              | _ => InputValidation end) _).
  intros []; reflexivity.
Defined.

(** [CheckRuleType.Description]. *)
Definition Description (c : CheckRuleType) : string :=
  match c with
  | ResourcePrecondition => "Resource precondition"
  | ResourcePostcondition => "Resource postcondition"
  | OutputPrecondition => "Module output value precondition"
  | CheckDataResource => "Check block data resource"
  | CheckAssertion => "Check block assertion"
  | InputValidation => "Input variable validation"
  | InvalidCondition => "Condition"
  end.

Inductive InstanceKey : Type :=
| NoKey
| IntKey (i : Z)
| StringKey (s : string).

#[global] Instance InstanceKey_eq_dec : EqDecision InstanceKey.
Proof. solve_decision. Defined.

#[global] Instance InstanceKey_countable : Countable InstanceKey.
Proof.
  refine (inj_countable'
    (fun k => match k with
              | NoKey => None
              | IntKey i => Some (inl i)
              | StringKey s => Some (inr s) end)
    (fun o => match o with
              | None => NoKey
              | Some (inl i) => IntKey i
              | Some (inr s) => StringKey s end) _).
  intros []; reflexivity.
Defined.

(** A module instance path: one call name and instance key per step. *)
Definition ModuleInstance : Type := list (string * InstanceKey).
(** A static module path: call names only. *)
Definition Module_ : Type := list string.

Record ResourceInstance : Type := {
  Resource : string;
  Key : InstanceKey
}.

#[global] Instance ResourceInstance_eq_dec : EqDecision ResourceInstance.
Proof. solve_decision. Defined.

#[global] Instance ResourceInstance_countable : Countable ResourceInstance.
Proof.
  refine (inj_countable' (fun r => (Resource r, Key r))
            (fun p => {| Resource := fst p; Key := snd p |}) _).
  intros []; reflexivity.
Defined.

(** The objects that can carry check rules. *)
Inductive Checkable : Type :=
| AbsResourceInstance (module : ModuleInstance) (resource : ResourceInstance)
| AbsOutputValue (module : ModuleInstance) (name : string)
| AbsCheck (module : ModuleInstance) (check : string)
| AbsInputVariable (module : ModuleInstance) (name : string).

#[global] Instance Checkable_eq_dec : EqDecision Checkable.
Proof. solve_decision. Defined.

#[global] Instance Checkable_countable : Countable Checkable.
Proof.
  refine (inj_countable'
    (fun c => match c with
              | AbsResourceInstance m r => inl (m, r)
              | AbsOutputValue m n => inr (inl (m, n))
              | AbsCheck m n => inr (inr (inl (m, n)))
              | AbsInputVariable m n => inr (inr (inr (m, n))) end)
    (fun e => match e with
              | inl (m, r) => AbsResourceInstance m r
              | inr (inl (m, n)) => AbsOutputValue m n
              | inr (inr (inl (m, n))) => AbsCheck m n
              | inr (inr (inr (m, n))) => AbsInputVariable m n end) _).
  intros []; reflexivity.
Defined.

(** The configuration objects the instances above belong to. *)
Inductive ConfigCheckable : Type :=
| ConfigResource (module : Module_) (resource : string)
| ConfigOutputValue (module : Module_) (name : string)
| ConfigCheck (module : Module_) (check : string)
| ConfigInputVariable (module : Module_) (name : string).

#[global] Instance ConfigCheckable_eq_dec : EqDecision ConfigCheckable.
Proof. solve_decision. Defined.

#[global] Instance ConfigCheckable_countable : Countable ConfigCheckable.
Proof.
  refine (inj_countable'
    (fun c => match c with
              | ConfigResource m n => inl (m, n)
              | ConfigOutputValue m n => inr (inl (m, n))
              | ConfigCheck m n => inr (inr (inl (m, n)))
              | ConfigInputVariable m n => inr (inr (inr (m, n))) end)
    (fun e => match e with
              | inl (m, n) => ConfigResource m n
              | inr (inl (m, n)) => ConfigOutputValue m n
              | inr (inr (inl (m, n))) => ConfigCheck m n
              | inr (inr (inr (m, n))) => ConfigInputVariable m n end) _).
  intros []; reflexivity.
Defined.

(** [Checkable.ConfigCheckable]: the instance keys are dropped. *)
Definition ConfigCheckableOf (c : Checkable) : ConfigCheckable :=
  match c with
  | AbsResourceInstance m r => ConfigResource (fst <$> m) (Resource r)
  | AbsOutputValue m n => ConfigOutputValue (fst <$> m) n
  | AbsCheck m n => ConfigCheck (fst <$> m) n
  | AbsInputVariable m n => ConfigInputVariable (fst <$> m) n
  end.

(** What an expression can refer to. *)
Inductive Referenceable : Type :=
| RefResourceInstance (r : ResourceInstance)
| RefCheck (name : string)
| RefOther (name : string).

Record Reference : Type := {
  Subject : Referenceable;
  SourceRange : hcl.Range
}.

(** The address of one rule of a checkable object. *)
Definition CheckRule : Type := Checkable * CheckRuleType * nat.
End addrs.

(** *** checks.State *)

Module checks.
Inductive Status : Type := StatusUnknown | StatusPass | StatusFail | StatusError.

#[global] Instance Status_eq_dec : EqDecision Status.
Proof. solve_decision. Defined.

(** [checks.StatusForCtyValue], of the checks package: unknown for an
    unknown value, error for a null or non-boolean one, pass for true and
    fail for false. [evalCheckRule] calls it on known, non-null booleans
    only. *)
Definition StatusForCtyValue (v : cty.Value) : Status :=
  if negb (cty.IsKnown v) then StatusUnknown
  else if cty.IsNull v then StatusError
  else if negb (bool_decide (cty.TypeOf v = cty.Bool)) then StatusError
  else match cty.raw v with
       | cty.RBool true => StatusPass
       | _ => StatusFail
       end.

(** Modelled from the spec: [checks.State] and its [ConfigHasChecks],
    [ReportCheckResult] and [ReportCheckFailure] are declared outside the
    files at hand. The state is the shared, address-keyed result table: a
    status per rule address and, for a failing rule, the rendered message
    and the referenced addresses. *)
Record State : Type := {
  configs : gset addrs.ConfigCheckable;
  statuses : gmap addrs.CheckRule Status;
  failureMsgs : gmap addrs.CheckRule string;
  failureRefs : gmap addrs.CheckRule (list addrs.Referenceable)
}.

Definition ConfigHasChecks (c : State) (addr : addrs.ConfigCheckable) : bool :=
  bool_decide (addr ∈ configs c).

Definition ReportCheckResult (c : State) (addr : addrs.Checkable)
    (checkType : addrs.CheckRuleType) (index : nat) (status : Status) : State :=
  {| configs := configs c;
     statuses := <[(addr, checkType, index) := status]> (statuses c);
     failureMsgs := failureMsgs c;
     failureRefs := failureRefs c |}.

Definition ReportCheckFailure (c : State) (addr : addrs.Checkable)
    (checkType : addrs.CheckRuleType) (index : nat) (errorMessage : string)
    (refs : list addrs.Referenceable) : State :=
  {| configs := configs c;
     statuses := <[(addr, checkType, index) := StatusFail]> (statuses c);
     failureMsgs := <[(addr, checkType, index) := errorMessage]> (failureMsgs c);
     failureRefs := <[(addr, checkType, index) := refs]> (failureRefs c) |}.
End checks.

(** *** Expressions, rules and evaluation contexts *)

(** [*hcl.EvalContext]: the variables an expression is evaluated against. *)
Definition HclEvalContext : Type := list (string * cty.Value).

(** An [hcl.Expression] by what the evaluator asks of it: its value in a
    context, its source range, and what [lang.ReferencesInExpr] finds. *)
Record Expression : Type := {
  Value : HclEvalContext -> cty.Value * hcl.Diagnostics;
  Range : hcl.Range;
  ReferencesInExpr : list addrs.Reference * tfdiags.Diagnostics
}.

Module configs.
Record CheckRule : Type := {
  Condition : Expression;
  ErrorMessage : Expression
}.
End configs.

Module instances.
Record RepetitionData : Type := {
  CountIndex : option cty.Value;
  EachKey : option cty.Value;
  EachValue : option cty.Value
}.
End instances.

Module lang.
(** [*lang.Scope], by its [EvalContext] method. *)
Record Scope : Type := {
  EvalContext : list addrs.Reference -> HclEvalContext * tfdiags.Diagnostics
}.
End lang.

(** The [EvalContext] interface, by its [EvaluationScope] method; the shared
    table behind its [Checks] method is threaded through [evalCheckRules]
    explicitly. *)
Record EvalContext : Type := {
  EvaluationScope :
    option addrs.Referenceable -> option addrs.Referenceable ->
    instances.RepetitionData -> lang.Scope
}.

Record checkResult : Type := {
  Status : checks.Status;
  FailureMessage : string;
  Refs : list addrs.Reference
}.

Record validateResult : Type := {
  Ctx : HclEvalContext;
  ErrorMessage : string;
  vRefs : list addrs.Reference
}.

(** [unicode.IsSpace] on the UTF-8 bytes of a string. The white space of
    one byte: tab, line feed, vertical tab, form feed, carriage return and
    space. *)
Definition isSpace (a : Ascii.ascii) : bool :=
  let n := Ascii.nat_of_ascii a in
  bool_decide (n = 32 ∨ (9 <= n ∧ n <= 13)).

(** The white space of two bytes: U+0085 and U+00A0. *)
Definition isSpace2 (a b : Ascii.ascii) : bool :=
  let a := Ascii.nat_of_ascii a in
  let b := Ascii.nat_of_ascii b in
  bool_decide (a = 194 ∧ (b = 133 ∨ b = 160)).

(** The white space of three bytes: U+1680, U+2000 to U+200A, U+2028,
    U+2029, U+202F, U+205F and U+3000. *)
Definition isSpace3 (a b c : Ascii.ascii) : bool :=
  let a := Ascii.nat_of_ascii a in
  let b := Ascii.nat_of_ascii b in
  let c := Ascii.nat_of_ascii c in
  bool_decide ((a = 225 ∧ b = 154 ∧ c = 128)
               ∨ (a = 226 ∧ b = 128
                  ∧ ((128 <= c ∧ c <= 138) ∨ c = 168 ∨ c = 169 ∨ c = 175))
               ∨ (a = 226 ∧ b = 129 ∧ c = 159)
               ∨ (a = 227 ∧ b = 128 ∧ c = 128)).

(** Drops the white space a string starts with. *)
Fixpoint trimLeft (s : string) : string :=
  match s with
  | EmptyString => EmptyString
  | String a s1 =>
      if isSpace a then trimLeft s1
      else
        match s1 with
        | EmptyString => s
        | String b s2 =>
            if isSpace2 a b then trimLeft s2
            else
              match s2 with
              | EmptyString => s
              | String c s3 => if isSpace3 a b c then trimLeft s3 else s
              end
        end
  end.

(** The same on a reversed string, whose characters come last byte
    first: drops the white space the string ended with. *)
Fixpoint trimLeftReversed (s : string) : string :=
  match s with
  | EmptyString => EmptyString
  | String c s1 =>
      if isSpace c then trimLeftReversed s1
      else
        match s1 with
        | EmptyString => s
        | String b s2 =>
            if isSpace2 b c then trimLeftReversed s2
            else
              match s2 with
              | EmptyString => s
              | String a s3 => if isSpace3 a b c then trimLeftReversed s3 else s
              end
        end
  end.

(** [strings.TrimSpace]: the string without the Unicode white space it
    starts and ends with. *)
Definition TrimSpace (s : string) : string :=
  String.rev (trimLeftReversed (String.rev (trimLeft s))).

(** *** eval_conditions.go *)

Definition evalCheckErrorMessage (expr : Expression) (hclCtx : HclEvalContext)
  : string * tfdiags.Diagnostics :=
  let diags : tfdiags.Diagnostics := [] in
  let '(val, hclDiags) := Value expr hclCtx in
  let diags := tfdiags.AppendHCL diags hclDiags in
  if hcl.HasErrors hclDiags then ("", diags)
  else
    match convert.Convert val cty.String with
    | Err err =>
        let diags := tfdiags.Append1 diags
          {| hcl.Severity := hcl.DiagError;
             hcl.Summary := "Invalid error message";
             hcl.Detail := "Unsuitable value for error message: " +:+ err +:+ ".";
             hcl.Subject := Some (Range expr) |} in
        ("", diags)
    | Ok val =>
        if negb (cty.IsKnown val) then ("", diags)
        else if cty.IsNull val then
          let diags := tfdiags.Append1 diags
            {| hcl.Severity := hcl.DiagError;
               hcl.Summary := "Invalid error message";
               hcl.Detail := "Unsuitable value for error message: must not be null.";
               hcl.Subject := Some (Range expr) |} in
          ("", diags)
        else
          let '(val, valMarks) := cty.Unmark val in
          if bool_decide (marks.Sensitive ∈ valMarks) then
            let diags := tfdiags.Append1 diags
              {| hcl.Severity := hcl.DiagWarning;
                 hcl.Summary := "Error message refers to sensitive values";
                 hcl.Detail := "The error expression used to explain this condition refers to sensitive values, so Terraform will not display the resulting message.

You can correct this by removing references to sensitive values, or by carefully using the nonsensitive() function if the expression will not reveal the sensitive data.";
                 hcl.Subject := Some (Range expr) |} in
            ("", diags)
          else (TrimSpace (cty.AsString val), diags)
    end.

Definition validateCheckRule (typ : addrs.CheckRuleType) (rule : configs.CheckRule)
    (ctx : EvalContext) (self : addrs.Checkable) (keyData : instances.RepetitionData)
  : outcome (validateResult * tfdiags.Diagnostics) :=
  let diags : tfdiags.Diagnostics := [] in
  let '(refs, moreDiags) := ReferencesInExpr (configs.Condition rule) in
  let diags := tfdiags.Append diags moreDiags in
  let '(moreRefs, moreDiags) := ReferencesInExpr (configs.ErrorMessage rule) in
  let diags := tfdiags.Append diags moreDiags in
  let refs := refs ++ moreRefs in
  let references : outcome (option addrs.Referenceable * option addrs.Referenceable) :=
    match typ with
    | addrs.ResourcePostcondition =>
        match self with
        | addrs.AbsResourceInstance _ resource =>
            Returns (Some (addrs.RefResourceInstance resource), None)
        | _ => Panics "Invalid self reference type"
        end
    | addrs.CheckAssertion =>
        match self with
        | addrs.AbsCheck _ check => Returns (None, Some (addrs.RefCheck check))
        | _ => Panics "Invalid source reference type"
        end
    | _ => Returns (None, None)
    end in
  match references with
  | Panics msg => Panics msg
  | Returns (selfReference, sourceReference) =>
      let scope := EvaluationScope ctx selfReference sourceReference keyData in
      let '(hclCtx, moreDiags) := lang.EvalContext scope refs in
      let diags := tfdiags.Append diags moreDiags in
      let '(errorMessage, moreDiags) :=
        evalCheckErrorMessage (configs.ErrorMessage rule) hclCtx in
      let diags := tfdiags.Append diags moreDiags in
      Returns ({| Ctx := hclCtx; ErrorMessage := errorMessage; vRefs := refs |}, diags)
  end.

Definition errInvalidCondition : string := "Invalid condition result".

(** [evalCheckRule]; the calls to [log.Printf] here and in [evalCheckRules]
    write to the trace log only and are left out. *)
Definition evalCheckRule (typ : addrs.CheckRuleType) (rule : configs.CheckRule)
    (ctx : EvalContext) (self : addrs.Checkable) (keyData : instances.RepetitionData)
    (severity : hcl.DiagnosticSeverity)
  : outcome (checkResult * tfdiags.Diagnostics) :=
  match validateCheckRule typ rule ctx self keyData with
  | Panics msg => Panics msg
  | Returns (validation, diags) =>
      let '(resultVal, hclDiags) := Value (configs.Condition rule) (Ctx validation) in
      let diags := tfdiags.AppendHCL diags hclDiags in
      if tfdiags.HasErrors diags then
        Returns ({| Status := checks.StatusError; FailureMessage := ""; Refs := [] |}, diags)
      else if negb (cty.IsKnown resultVal) then
        let diags :=
          if bool_decide (typ = addrs.CheckAssertion) then
            tfdiags.Append1 diags
              {| hcl.Severity := hcl.DiagWarning;
                 hcl.Summary := addrs.Description typ +:+ " known after apply";
                 hcl.Detail := "The condition could not be evaluated at this time, a result will be known when this plan is applied.";
                 hcl.Subject := Some (Range (configs.Condition rule)) |}
          else diags in
        Returns ({| Status := checks.StatusUnknown; FailureMessage := ""; Refs := [] |}, diags)
      else if cty.IsNull resultVal then
        let diags := tfdiags.Append1 diags
          {| hcl.Severity := hcl.DiagError;
             hcl.Summary := errInvalidCondition;
             hcl.Detail := "Condition expression must return either true or false, not null.";
             hcl.Subject := Some (Range (configs.Condition rule)) |} in
        Returns ({| Status := checks.StatusError; FailureMessage := ""; Refs := [] |}, diags)
      else
        match convert.Convert resultVal cty.Bool with
        | Err err =>
            let detail := "Invalid condition result value: " +:+ err +:+ "." in
            let diags := tfdiags.Append1 diags
              {| hcl.Severity := hcl.DiagError;
                 hcl.Summary := errInvalidCondition;
                 hcl.Detail := detail;
                 hcl.Subject := Some (Range (configs.Condition rule)) |} in
            Returns ({| Status := checks.StatusError; FailureMessage := ""; Refs := [] |}, diags)
        | Ok resultVal =>
            let '(resultVal, _) := cty.Unmark resultVal in
            let status := checks.StatusForCtyValue resultVal in
            if negb (bool_decide (status = checks.StatusFail)) then
              Returns ({| Status := status; FailureMessage := ""; Refs := [] |}, diags)
            else
              let errorMessageForDiags :=
                if bool_decide (ErrorMessage validation = "")
                then "This check failed, but has an invalid error message as described in the other accompanying messages."
                else ErrorMessage validation in
              let diags := tfdiags.Append1 diags
                {| hcl.Severity := severity;
                   hcl.Summary := addrs.Description typ +:+ " failed";
                   hcl.Detail := errorMessageForDiags;
                   hcl.Subject := Some (Range (configs.Condition rule)) |} in
              Returns ({| Status := status;
                          FailureMessage := ErrorMessage validation;
                          Refs := vRefs validation |}, diags)
        end
  end.

(** The loop of [evalCheckRules], from rule index [i] on. *)
Fixpoint evalCheckRulesFrom (typ : addrs.CheckRuleType) (i : nat)
    (rules : list configs.CheckRule) (ctx : EvalContext) (self : addrs.Checkable)
    (keyData : instances.RepetitionData) (severity : hcl.DiagnosticSeverity)
    (diags : tfdiags.Diagnostics) (checkState : checks.State)
  : outcome (tfdiags.Diagnostics * checks.State) :=
  match rules with
  | [] => Returns (diags, checkState)
  | rule :: rest =>
      match evalCheckRule typ rule ctx self keyData severity with
      | Panics msg => Panics msg
      | Returns (result, ruleDiags) =>
          let diags := tfdiags.Append diags ruleDiags in
          let checkState :=
            if bool_decide (Status result = checks.StatusFail) then
              let refs := map addrs.Subject (Refs result) in
              checks.ReportCheckFailure checkState self typ i (FailureMessage result) refs
            else
              checks.ReportCheckResult checkState self typ i (Status result) in
          evalCheckRulesFrom typ (S i) rest ctx self keyData severity diags checkState
      end
  end.

Definition evalCheckRules (typ : addrs.CheckRuleType) (rules : list configs.CheckRule)
    (ctx : EvalContext) (checkState : checks.State) (self : addrs.Checkable)
    (keyData : instances.RepetitionData) (diagSeverity : tfdiags.Severity)
  : outcome (tfdiags.Diagnostics * checks.State) :=
  let diags : tfdiags.Diagnostics := [] in
  if negb (checks.ConfigHasChecks checkState (addrs.ConfigCheckableOf self)) then
    if negb (bool_decide (length rules = 0)) then
      Panics "check state says that the object should have no rules, but it has some"
    else Returns (diags, checkState)
  else if bool_decide (length rules = 0) then Returns ([], checkState)
  else
    match tfdiags.ToHCL diagSeverity with
    | Panics msg => Panics msg
    | Returns severity =>
        evalCheckRulesFrom typ 0 rules ctx self keyData severity diags checkState
    end.

(** *** Vocabulary for the properties *)

(** The part of [evalCheckRule] up to the early return: the validated rule,
    the value of its condition in the validated context, and the
    diagnostics gathered so far. *)
Definition evalCondition (typ : addrs.CheckRuleType) (rule : configs.CheckRule)
    (ctx : EvalContext) (self : addrs.Checkable) (keyData : instances.RepetitionData)
  : outcome (validateResult * cty.Value * tfdiags.Diagnostics) :=
  match validateCheckRule typ rule ctx self keyData with
  | Panics msg => Panics msg
  | Returns (validation, diags) =>
      let '(resultVal, hclDiags) := Value (configs.Condition rule) (Ctx validation) in
      Returns (validation, resultVal, tfdiags.AppendHCL diags hclDiags)
  end.

(** The rule type and the checkable object agree, so that
    [validateCheckRule] does not panic. *)
Definition selfFits (typ : addrs.CheckRuleType) (self : addrs.Checkable) : bool :=
  match typ, self with
  | addrs.ResourcePostcondition, addrs.AbsResourceInstance _ _ => true
  | addrs.ResourcePostcondition, _ => false
  | addrs.CheckAssertion, addrs.AbsCheck _ _ => true
  | addrs.CheckAssertion, _ => false
  | _, _ => true
  end.

(** The diagnostic of a failed condition. *)
Definition failedDiagnostic (typ : addrs.CheckRuleType) (rule : configs.CheckRule)
    (validation : validateResult) (severity : hcl.DiagnosticSeverity) : hcl.Diagnostic :=
  {| hcl.Severity := severity;
     hcl.Summary := addrs.Description typ +:+ " failed";
     hcl.Detail :=
       if bool_decide (ErrorMessage validation = "")
       then "This check failed, but has an invalid error message as described in the other accompanying messages."
       else ErrorMessage validation;
     hcl.Subject := Some (Range (configs.Condition rule)) |}.

(** The specification's account of a boolean condition: the status follows
    the condition alone, whatever the failure message. *)
Definition statusFollowsConditionAsSpecified (typ : addrs.CheckRuleType)
    (rule : configs.CheckRule) (ctx : EvalContext) (self : addrs.Checkable)
    (keyData : instances.RepetitionData) (severity : hcl.DiagnosticSeverity) : Prop :=
  forall validation resultVal diags b,
    evalCondition typ rule ctx self keyData = Returns (validation, resultVal, diags) ->
    cty.raw resultVal = cty.RBool b ->
    exists result diags',
      evalCheckRule typ rule ctx self keyData severity = Returns (result, diags')
      /\ Status result = if b then checks.StatusPass else checks.StatusFail.

(** The specification's account of an unknown condition. *)
Definition unknownAsSpecified (typ : addrs.CheckRuleType)
    (rule : configs.CheckRule) (ctx : EvalContext) (self : addrs.Checkable)
    (keyData : instances.RepetitionData) (severity : hcl.DiagnosticSeverity) : Prop :=
  forall validation resultVal diags,
    evalCondition typ rule ctx self keyData = Returns (validation, resultVal, diags) ->
    cty.IsKnown resultVal = false ->
    exists result diags',
      evalCheckRule typ rule ctx self keyData severity = Returns (result, diags')
      /\ Status result = checks.StatusUnknown
      /\ ((exists w, diags' = tfdiags.Append1 diags w /\ hcl.Severity w = hcl.DiagWarning)
          <-> typ = addrs.CheckAssertion).

(** The specification's account of a false condition. *)
Definition failAsSpecified (typ : addrs.CheckRuleType)
    (rule : configs.CheckRule) (ctx : EvalContext) (self : addrs.Checkable)
    (keyData : instances.RepetitionData) (severity : hcl.DiagnosticSeverity) : Prop :=
  forall validation resultVal diags,
    evalCondition typ rule ctx self keyData = Returns (validation, resultVal, diags) ->
    cty.raw resultVal = cty.RBool false ->
    exists result diags',
      evalCheckRule typ rule ctx self keyData severity = Returns (result, diags')
      /\ Status result = checks.StatusFail
      /\ exists d, diags' = tfdiags.Append1 diags d /\ hcl.Severity d = severity.

(** *** A small configuration to run the evaluator on *)

Definition constant (v : cty.Value) (range : hcl.Range) : Expression :=
  {| Value := fun _ => (v, []); Range := range; ReferencesInExpr := ([], []) |}.

(** An expression that refers to [data.http.probe]. *)
Definition probeRef : addrs.Reference :=
  {| addrs.Subject :=
       addrs.RefResourceInstance
         {| addrs.Resource := "data.http.probe"; addrs.Key := addrs.NoKey |};
     addrs.SourceRange := "main.tf:3,17-32" |}.

Definition referring (v : cty.Value) (range : hcl.Range) : Expression :=
  {| Value := fun _ => (v, []); Range := range; ReferencesInExpr := ([probeRef], []) |}.

Definition emptyContext : EvalContext :=
  {| EvaluationScope := fun _ _ _ => {| lang.EvalContext := fun _ => ([], []) |} |}.

Definition noRepetition : instances.RepetitionData :=
  {| instances.CountIndex := None; instances.EachKey := None; instances.EachValue := None |}.

Definition healthCheck : addrs.Checkable := addrs.AbsCheck [] "health".

(** [condition = true], [error_message = null]. *)
Definition passingNullMessage : configs.CheckRule :=
  {| configs.Condition := constant cty.True_ "main.tf:3,17-21";
     configs.ErrorMessage := constant (cty.NullVal cty.String) "main.tf:4,21-25" |}.

(** [condition] not known yet, [error_message = null]. *)
Definition unknownNullMessage : configs.CheckRule :=
  {| configs.Condition := constant (cty.UnknownVal cty.Bool) "main.tf:3,17-32";
     configs.ErrorMessage := constant (cty.NullVal cty.String) "main.tf:4,21-25" |}.

(** [condition = false], [error_message = null]. *)
Definition failingNullMessage : configs.CheckRule :=
  {| configs.Condition := constant cty.False_ "main.tf:3,17-22";
     configs.ErrorMessage := constant (cty.NullVal cty.String) "main.tf:4,21-25" |}.

(** [condition = true] and [condition = false] with a plain message. *)
Definition passing : configs.CheckRule :=
  {| configs.Condition := constant cty.True_ "main.tf:3,17-21";
     configs.ErrorMessage := constant (cty.StringVal "negative number") "main.tf:4,21-38" |}.

Definition failing : configs.CheckRule :=
  {| configs.Condition := referring cty.False_ "main.tf:7,17-22";
     configs.ErrorMessage := constant (cty.StringVal " positive number ") "main.tf:8,21-38" |}.

(** [condition = null] and [condition] not known yet, with a plain message. *)
Definition nullCondition : configs.CheckRule :=
  {| configs.Condition := constant (cty.NullVal cty.Bool) "main.tf:3,17-21";
     configs.ErrorMessage := constant (cty.StringVal "negative number") "main.tf:4,21-38" |}.

Definition unknownCondition : configs.CheckRule :=
  {| configs.Condition := constant (cty.UnknownVal cty.Bool) "main.tf:3,17-32";
     configs.ErrorMessage := constant (cty.StringVal "negative number") "main.tf:4,21-38" |}.

(** A check state that expects checks for [check.health]. *)
Definition healthState : checks.State :=
  {| checks.configs := {[ addrs.ConfigCheck [] "health" ]};
     checks.statuses := ∅;
     checks.failureMsgs := ∅;
     checks.failureRefs := ∅ |}.

End Conditions.

(* ===================================================================== *)
(** ** stackplan.PlannedChange *)
(* ===================================================================== *)

Module Stackplan.

(** Encoded payloads ([[]byte]) and leaf addresses are kept by their bytes
    and canonical renderings; the [String] methods of the leaf addresses
    return that rendering. *)
Definition bytes : Type := string.

Module anypb.
Record Any : Type := { TypeUrl : string; Value : bytes }.
End anypb.

Module cty.
Definition Path : Type := list string.
(** [cty.PathSet], with [Empty] and [List]. *)
Definition PathSet : Type := gset Path.
Definition Empty (s : PathSet) : bool := bool_decide (s = ∅).
Definition List (s : PathSet) : list Path := elements s.
End cty.

Module plans.
(** [type Action rune]. *)
Definition Action : Type := Z.
(** [type DynamicValue []byte]. *)
Definition DynamicValue : Type := bytes.
End plans.

Module addrs.
Inductive ResourceMode : Type := InvalidResourceMode | ManagedResourceMode | DataResourceMode.

#[global] Instance ResourceMode_eq_dec : EqDecision ResourceMode.
Proof. solve_decision. Defined.

Record AbsResourceInstance : Type := {
  Mode : ResourceMode;
  Type_ : string;
  String_ : string
}.

#[global] Instance AbsResourceInstance_eq_dec : EqDecision AbsResourceInstance.
Proof. solve_decision. Defined.

Record AbsProviderConfig : Type := {
  Provider : string;
  ConfigString : string
}.
End addrs.

Module stackaddrs.
Definition AbsComponentInstance : Type := string.
Definition DeposedKey : Type := string.

Module AbsResourceInstanceObjectItem.
Record t : Type := {
  ResourceInstance : addrs.AbsResourceInstance;
  DeposedKey : DeposedKey
}.
End AbsResourceInstanceObjectItem.

(** [InStackComponentInstance[addrs.AbsResourceInstanceObject]]. *)
Module AbsResourceInstanceObject.
Record t : Type := {
  Component : AbsComponentInstance;
  Item : AbsResourceInstanceObjectItem.t
}.
End AbsResourceInstanceObject.

(** [InStackComponentInstance[addrs.AbsResourceInstance]]. *)
Module AbsResourceInstance.
Record t : Type := {
  Component : AbsComponentInstance;
  Item : addrs.AbsResourceInstance
}.
End AbsResourceInstance.

Record OutputValue : Type := { Name : string }.
End stackaddrs.

Module ImportingSrc.
Record t : Type := { ID : string; Unknown : bool }.
End ImportingSrc.

Module ResourceInstanceChangeSrc.
Record t : Type := {
  Addr : addrs.AbsResourceInstance;
  PrevRunAddr : addrs.AbsResourceInstance;
  ProviderAddr : addrs.AbsProviderConfig;
  Action : plans.Action;
  Before : plans.DynamicValue;
  After : plans.DynamicValue;
  BeforeSensitivePaths : list cty.Path;
  AfterSensitivePaths : list cty.Path;
  RequiredReplace : cty.PathSet;
  Importing : option ImportingSrc.t
}.

(** [Moved]: the address differs from the one of the previous run. *)
Definition Moved (rc : t) : bool := negb (bool_decide (Addr rc = PrevRunAddr rc)).
End ResourceInstanceChangeSrc.

(** [states.ResourceInstanceObjectSrc] and [configschema.Block] pass through
    this file untouched. *)
Definition ResourceInstanceObjectSrc : Type := bytes.
Definition Schema : Type := bytes.

Module planproto.
(** The [DeferredReason] protocol enumeration, by number. *)
Definition DeferredReason : Type := Z.
Record Deferred : Type := { Reason : DeferredReason }.
End planproto.

Module tfstackdata1.
Module PlanResourceInstanceChangePlanned.
Record t : Type := {
  ComponentInstanceAddr : string;
  ResourceInstanceAddr : string;
  DeposedKey : string;
  ProviderConfigAddr : string;
  Change : option bytes;
  PriorState : option bytes
}.
End PlanResourceInstanceChangePlanned.

Module PlanDeferredResourceInstanceChange.
Record t : Type := {
  Change : option PlanResourceInstanceChangePlanned.t;
  Deferred : option planproto.Deferred
}.
End PlanDeferredResourceInstanceChange.

(** The messages this file wraps into [anypb.Any]. *)
Inductive Message : Type :=
| MPlanResourceInstanceChangePlanned (m : PlanResourceInstanceChangePlanned.t)
| MPlanDeferredResourceInstanceChange (m : PlanDeferredResourceInstanceChange.t).
End tfstackdata1.

Module terraform1.
Definition ChangeType : Type := Z.
Definition AttributePath : Type := bytes.
Definition ResourceMode : Type := Z.
Definition ResourceInstanceInStackAddr : Type := bytes.
Definition ResourceInstanceObjectInStackAddr : Type := bytes.

Record DynamicValue : Type := {
  Msgpack : bytes;
  Sensitive : list AttributePath
}.

Record DynamicValueChange : Type := { Old : DynamicValue; New : DynamicValue }.

Inductive Deferred_Reason : Type :=
| Deferred_INVALID
| Deferred_INSTANCE_COUNT_UNKNOWN
| Deferred_RESOURCE_CONFIG_UNKNOWN
| Deferred_PROVIDER_CONFIG_UNKNOWN
| Deferred_ABSENT_PREREQ
| Deferred_DEFERRED_PREREQ.

Record Deferred : Type := { Reason : Deferred_Reason }.

Record PlannedChange_ResourceInstance_Moved : Type := {
  PrevAddr : ResourceInstanceInStackAddr
}.

Record PlannedChange_ResourceInstance_Imported : Type := {
  ImportId : string;
  Unknown : bool
}.

Module PlannedChange_ResourceInstance.
Record t : Type := {
  Addr : ResourceInstanceObjectInStackAddr;
  ResourceMode : ResourceMode;
  ResourceType : string;
  ProviderAddr : string;
  Actions : list ChangeType;
  Values : DynamicValueChange;
  ReplacePaths : list AttributePath;
  Moved : option PlannedChange_ResourceInstance_Moved;
  Imported : option PlannedChange_ResourceInstance_Imported
}.
End PlannedChange_ResourceInstance.

Module PlannedChange_ResourceInstanceDeferred.
Record t : Type := {
  ResourceInstance : option PlannedChange_ResourceInstance.t;
  Deferred : Deferred
}.
End PlannedChange_ResourceInstanceDeferred.

Module PlannedChange_OutputValue.
Record t : Type := {
  Name : string;
  Actions : list ChangeType;
  Values : DynamicValueChange
}.
End PlannedChange_OutputValue.

(** The [Description] alternatives the three change types below emit. *)
Inductive PlannedChange_ChangeDescription : Type :=
| ResourceInstancePlanned (r : PlannedChange_ResourceInstance.t)
| ResourceInstanceDeferred (d : PlannedChange_ResourceInstanceDeferred.t)
| OutputValuePlanned (o : PlannedChange_OutputValue.t).

(** The generated getter, which accepts the nil description. *)
Definition GetResourceInstancePlanned (x : option PlannedChange_ChangeDescription)
  : option PlannedChange_ResourceInstance.t :=
  match x with
  | Some (ResourceInstancePlanned r) => Some r
  | _ => None
  end.

Module PlannedChange.
Record t : Type := {
  Raw : list anypb.Any;
  Descriptions : list PlannedChange_ChangeDescription
}.
End PlannedChange.
End terraform1.


(** [providers.DeferredReason] is declared outside this file: a type with
    comparable values and the five named reasons, which Go requires to be
    distinct for the [switch] of [EncodeDeferred] to compile. *)
Class DeferredReasons : Type := {
  DeferredReason : Type;
  DeferredReason_eq_dec :: EqDecision DeferredReason;
  DeferredReasonInstanceCountUnknown : DeferredReason;
  DeferredReasonResourceConfigUnknown : DeferredReason;
  DeferredReasonProviderConfigUnknown : DeferredReason;
  DeferredReasonAbsentPrereq : DeferredReason;
  DeferredReasonDeferredPrereq : DeferredReason;
  DeferredReason_distinct :
    NoDup [DeferredReasonInstanceCountUnknown;
           DeferredReasonResourceConfigUnknown;
           DeferredReasonProviderConfigUnknown;
           DeferredReasonAbsentPrereq;
           DeferredReasonDeferredPrereq]
}.

(** The encoders of other packages the planned changes call. *)
Class Encoders `{DeferredReasons} : Type := {
  (** [anypb.MarshalFrom] *)
  MarshalFrom : tfstackdata1.Message -> result anypb.Any;
  (** [planfile.ResourceChangeToProto] *)
  ResourceChangeToProto : option ResourceInstanceChangeSrc.t -> result (option bytes);
  (** [tfstackdata1.ResourceInstanceObjectStateToTFStackData1] *)
  ResourceInstanceObjectStateToTFStackData1 :
    option ResourceInstanceObjectSrc -> addrs.AbsProviderConfig -> option bytes;
  (** [terraform1.ChangeTypesForPlanAction] *)
  ChangeTypesForPlanAction : plans.Action -> result (list terraform1.ChangeType);
  (** [planfile.DeferredReasonToProto] *)
  DeferredReasonToProto : DeferredReason -> planproto.DeferredReason * option string;
  (** [terraform1.NewAttributePath] *)
  NewAttributePath : cty.Path -> terraform1.AttributePath;
  (** [terraform1.NewDynamicValue] *)
  NewDynamicValue : plans.DynamicValue -> list cty.Path -> terraform1.DynamicValue;
  (** [terraform1.NewResourceInstanceInStackAddr] *)
  NewResourceInstanceInStackAddr :
    stackaddrs.AbsResourceInstance.t -> terraform1.ResourceInstanceInStackAddr;
  (** [terraform1.NewResourceInstanceObjectInStackAddr] *)
  NewResourceInstanceObjectInStackAddr :
    stackaddrs.AbsResourceInstanceObject.t -> terraform1.ResourceInstanceObjectInStackAddr;
  (** [stackutils.ResourceModeForProto] *)
  ResourceModeForProto : addrs.ResourceMode -> terraform1.ResourceMode
}.

Module PlannedChangeResourceInstancePlanned.
Record t : Type := {
  ResourceInstanceObjectAddr : stackaddrs.AbsResourceInstanceObject.t;
  ChangeSrc : option ResourceInstanceChangeSrc.t;
  PriorStateSrc : option ResourceInstanceObjectSrc;
  ProviderConfigAddr : addrs.AbsProviderConfig;
  Schema : option Schema
}.
End PlannedChangeResourceInstancePlanned.

Module PlannedChangeOutputValue.
Record t : Type := {
  Addr : stackaddrs.OutputValue;
  Action : plans.Action;
  OldValue : plans.DynamicValue;
  NewValue : plans.DynamicValue;
  OldValueSensitivePaths : list cty.Path;
  NewValueSensitivePaths : list cty.Path
}.
End PlannedChangeOutputValue.

Import PlannedChangeResourceInstancePlanned.
Import stackaddrs.AbsResourceInstanceObject.
Import stackaddrs.AbsResourceInstanceObjectItem.

Section WithEncoders.
Context `{Encoders}.

(** The record [PlanResourceInstanceChangePlannedProto] returns when there
    is neither a change nor a prior state. *)
Definition placeholder (pc : PlannedChangeResourceInstancePlanned.t) : tfstackdata1.PlanResourceInstanceChangePlanned.t :=
  let rioAddr := ResourceInstanceObjectAddr pc in
  {| tfstackdata1.PlanResourceInstanceChangePlanned.ComponentInstanceAddr :=
       Component rioAddr;
     tfstackdata1.PlanResourceInstanceChangePlanned.ResourceInstanceAddr :=
       addrs.String_ (ResourceInstance (Item rioAddr));
     tfstackdata1.PlanResourceInstanceChangePlanned.DeposedKey :=
       DeposedKey (Item rioAddr);
     tfstackdata1.PlanResourceInstanceChangePlanned.ProviderConfigAddr :=
       addrs.ConfigString (ProviderConfigAddr pc);
     tfstackdata1.PlanResourceInstanceChangePlanned.Change := None;
     tfstackdata1.PlanResourceInstanceChangePlanned.PriorState := None |}.

Definition PlanResourceInstanceChangePlannedProto (pc : PlannedChangeResourceInstancePlanned.t)
  : result tfstackdata1.PlanResourceInstanceChangePlanned.t :=
  let rioAddr := ResourceInstanceObjectAddr pc in
  match ChangeSrc pc, PriorStateSrc pc with
  | None, None => Ok (placeholder pc)
  | _, _ =>
      let priorStateProto :=
        ResourceInstanceObjectStateToTFStackData1 (PriorStateSrc pc) (ProviderConfigAddr pc) in
      match ResourceChangeToProto (ChangeSrc pc) with
      | Err err => Err ("converting resource instance change to proto: " +:+ err)
      | Ok changeProto =>
          Ok {| tfstackdata1.PlanResourceInstanceChangePlanned.ComponentInstanceAddr :=
                  Component rioAddr;
                tfstackdata1.PlanResourceInstanceChangePlanned.ResourceInstanceAddr :=
                  addrs.String_ (ResourceInstance (Item rioAddr));
                tfstackdata1.PlanResourceInstanceChangePlanned.DeposedKey :=
                  DeposedKey (Item rioAddr);
                tfstackdata1.PlanResourceInstanceChangePlanned.ProviderConfigAddr :=
                  addrs.ConfigString (ProviderConfigAddr pc);
                tfstackdata1.PlanResourceInstanceChangePlanned.Change := changeProto;
                tfstackdata1.PlanResourceInstanceChangePlanned.PriorState := priorStateProto |}
      end
  end.

Definition encodePathSet (pathSet : cty.PathSet) : result (list terraform1.AttributePath) :=
  if cty.Empty pathSet then Ok []
  else Ok (map NewAttributePath (cty.List pathSet)).

Definition ChangeDescription (pc : PlannedChangeResourceInstancePlanned.t)
  : result (option terraform1.PlannedChange_ChangeDescription) :=
  let rioAddr := ResourceInstanceObjectAddr pc in
  match ChangeSrc pc with
  | None => Ok None
  | Some src =>
      match ChangeTypesForPlanAction (ResourceInstanceChangeSrc.Action src) with
      | Err err => Err err
      | Ok protoChangeTypes =>
          match encodePathSet (ResourceInstanceChangeSrc.RequiredReplace src) with
          | Err err => Err err
          | Ok replacePaths =>
              let moved :=
                if ResourceInstanceChangeSrc.Moved src then
                  Some {| terraform1.PrevAddr :=
                    NewResourceInstanceInStackAddr
                      {| stackaddrs.AbsResourceInstance.Component := Component rioAddr;
                         stackaddrs.AbsResourceInstance.Item :=
                           ResourceInstanceChangeSrc.PrevRunAddr src |} |}
                else None in
              let imported :=
                match ResourceInstanceChangeSrc.Importing src with
                | Some importing =>
                    Some {| terraform1.ImportId := ImportingSrc.ID importing;
                            terraform1.Unknown := ImportingSrc.Unknown importing |}
                | None => None
                end in
              Ok (Some (terraform1.ResourceInstancePlanned
                {| terraform1.PlannedChange_ResourceInstance.Addr :=
                     NewResourceInstanceObjectInStackAddr rioAddr;
                   terraform1.PlannedChange_ResourceInstance.ResourceMode :=
                     ResourceModeForProto (addrs.Mode (ResourceInstanceChangeSrc.Addr src));
                   terraform1.PlannedChange_ResourceInstance.ResourceType :=
                     addrs.Type_ (ResourceInstanceChangeSrc.Addr src);
                   terraform1.PlannedChange_ResourceInstance.ProviderAddr :=
                     addrs.Provider (ResourceInstanceChangeSrc.ProviderAddr src);
                   terraform1.PlannedChange_ResourceInstance.Actions := protoChangeTypes;
                   terraform1.PlannedChange_ResourceInstance.Values :=
                     {| terraform1.Old :=
                          NewDynamicValue (ResourceInstanceChangeSrc.Before src)
                            (ResourceInstanceChangeSrc.BeforeSensitivePaths src);
                        terraform1.New :=
                          NewDynamicValue (ResourceInstanceChangeSrc.After src)
                            (ResourceInstanceChangeSrc.AfterSensitivePaths src) |};
                   terraform1.PlannedChange_ResourceInstance.ReplacePaths := replacePaths;
                   terraform1.PlannedChange_ResourceInstance.Moved := moved;
                   terraform1.PlannedChange_ResourceInstance.Imported := imported |}))
          end
      end
  end.

(** [PlannedChangeResourceInstancePlanned.PlannedChangeProto]. *)
Definition PlannedChangeProto (pc : PlannedChangeResourceInstancePlanned.t) : result terraform1.PlannedChange.t :=
  match PlanResourceInstanceChangePlannedProto pc with
  | Err err => Err err
  | Ok pric =>
      match MarshalFrom (tfstackdata1.MPlanResourceInstanceChangePlanned pric) with
      | Err err => Err err
      | Ok raw =>
          match ChangeSrc pc, PriorStateSrc pc with
          | None, None =>
              Ok {| terraform1.PlannedChange.Raw := [raw];
                    terraform1.PlannedChange.Descriptions := [] |}
          | _, _ =>
              let descs : list terraform1.PlannedChange_ChangeDescription := [] in
              match ChangeDescription pc with
              | Err err => Err err
              | Ok desc =>
                  let descs :=
                    match desc with
                    | Some d => descs ++ [d]
                    | None => descs
                    end in
                  Ok {| terraform1.PlannedChange.Raw := [raw];
                        terraform1.PlannedChange.Descriptions := descs |}
              end
          end
      end
  end.

Definition EncodeDeferred (reason : DeferredReason) : terraform1.Deferred :=
  {| terraform1.Reason :=
       if decide (reason = DeferredReasonInstanceCountUnknown)
       then terraform1.Deferred_INSTANCE_COUNT_UNKNOWN
       else if decide (reason = DeferredReasonResourceConfigUnknown)
       then terraform1.Deferred_RESOURCE_CONFIG_UNKNOWN
       else if decide (reason = DeferredReasonProviderConfigUnknown)
       then terraform1.Deferred_PROVIDER_CONFIG_UNKNOWN
       else if decide (reason = DeferredReasonAbsentPrereq)
       then terraform1.Deferred_ABSENT_PREREQ
       else if decide (reason = DeferredReasonDeferredPrereq)
       then terraform1.Deferred_DEFERRED_PREREQ
       else terraform1.Deferred_INVALID |}.

Record PlannedChangeDeferredResourceInstancePlanned : Type := {
  ResourceInstancePlanned : PlannedChangeResourceInstancePlanned.t;
  DeferredReason_ : DeferredReason
}.

(** The message the deferred change wraps into its raw record. *)
Definition deferredMessage (change : tfstackdata1.PlanResourceInstanceChangePlanned.t)
    (deferredReason : planproto.DeferredReason) : tfstackdata1.Message :=
  tfstackdata1.MPlanDeferredResourceInstanceChange
    {| tfstackdata1.PlanDeferredResourceInstanceChange.Change := Some change;
       tfstackdata1.PlanDeferredResourceInstanceChange.Deferred :=
         Some {| planproto.Reason := deferredReason |} |}.

(** [PlannedChangeDeferredResourceInstancePlanned.PlannedChangeProto]. *)
Definition DeferredPlannedChangeProto (dpc : PlannedChangeDeferredResourceInstancePlanned)
  : result terraform1.PlannedChange.t :=
  match PlanResourceInstanceChangePlannedProto (ResourceInstancePlanned dpc) with
  | Err err => Err err
  | Ok change =>
      let '(deferredReason, _) := DeferredReasonToProto (DeferredReason_ dpc) in
      match MarshalFrom (deferredMessage change deferredReason) with
      | Err err => Err err
      | Ok raw =>
          match ChangeDescription (ResourceInstancePlanned dpc) with
          | Err err => Err err
          | Ok ricd =>
              let descs : list terraform1.PlannedChange_ChangeDescription := [] in
              let descs := descs ++
                [terraform1.ResourceInstanceDeferred
                   {| terraform1.PlannedChange_ResourceInstanceDeferred.ResourceInstance :=
                        terraform1.GetResourceInstancePlanned ricd;
                      terraform1.PlannedChange_ResourceInstanceDeferred.Deferred :=
                        EncodeDeferred (DeferredReason_ dpc) |}] in
              Ok {| terraform1.PlannedChange.Raw := [raw];
                    terraform1.PlannedChange.Descriptions := descs |}
          end
      end
  end.

End WithEncoders.

(** *** A concrete set of reasons and encoders to run the changes on *)

Lemma wireReasons_distinct :
  NoDup ["instance_count_unknown"; "resource_config_unknown";
         "provider_config_unknown"; "absent_prereq"; "deferred_prereq"].
Proof. apply (bool_decide_unpack _). vm_compute. exact I. Qed.

(** Reasons spelled as strings, so that any other string is a reason the
    switch does not know. *)
Definition wireReasons : DeferredReasons :=
  {| DeferredReason := string;
     DeferredReasonInstanceCountUnknown := "instance_count_unknown";
     DeferredReasonResourceConfigUnknown := "resource_config_unknown";
     DeferredReasonProviderConfigUnknown := "provider_config_unknown";
     DeferredReasonAbsentPrereq := "absent_prereq";
     DeferredReasonDeferredPrereq := "deferred_prereq";
     DeferredReason_distinct := wireReasons_distinct |}.

Definition typeUrl (m : tfstackdata1.Message) : string :=
  match m with
  | tfstackdata1.MPlanResourceInstanceChangePlanned _ =>
      "type.googleapis.com/terraform.stacks1.PlanResourceInstanceChangePlanned"
  | tfstackdata1.MPlanDeferredResourceInstanceChange _ =>
      "type.googleapis.com/terraform.stacks1.PlanDeferredResourceInstanceChange"
  end.

Definition wireReasonToProto (reason : string) : planproto.DeferredReason * option string :=
  if decide (reason = "instance_count_unknown") then (1%Z, None)
  else if decide (reason = "resource_config_unknown") then (2%Z, None)
  else if decide (reason = "provider_config_unknown") then (3%Z, None)
  else if decide (reason = "absent_prereq") then (4%Z, None)
  else if decide (reason = "deferred_prereq") then (5%Z, None)
  else (0%Z, Some "invalid deferred reason").

(** Encoders that accept the actions 0 and 43 only, and that report an
    error, next to the code 0, for a reason outside the five. *)
Definition wireEncoders : @Encoders wireReasons :=
  {| MarshalFrom := fun m => Ok {| anypb.TypeUrl := typeUrl m; anypb.Value := "" |};
     ResourceChangeToProto := fun src => Ok (ResourceInstanceChangeSrc.After <$> src);
     ResourceInstanceObjectStateToTFStackData1 := fun src _ => src;
     ChangeTypesForPlanAction := fun action =>
       if decide (action = 0%Z) then Ok [0%Z]
       else if decide (action = 43%Z) then Ok [1%Z]
       else Err "unsupported action";
     DeferredReasonToProto :=
       (wireReasonToProto
          : @DeferredReason wireReasons -> planproto.DeferredReason * option string);
     NewAttributePath := fun path => String.concat "." path;
     NewDynamicValue := fun value paths =>
       {| terraform1.Msgpack := value;
          terraform1.Sensitive := map (String.concat ".") paths |};
     NewResourceInstanceInStackAddr := fun addr =>
       stackaddrs.AbsResourceInstance.Component addr +:+ "."
         +:+ addrs.String_ (stackaddrs.AbsResourceInstance.Item addr);
     NewResourceInstanceObjectInStackAddr := fun addr =>
       Component addr +:+ "." +:+ addrs.String_ (ResourceInstance (Item addr));
     ResourceModeForProto := fun mode =>
       match mode with
       | addrs.ManagedResourceMode => 1%Z
       | addrs.DataResourceMode => 2%Z
       | addrs.InvalidResourceMode => 0%Z
       end |}.

(** An object that was in the previous state and is gone: no change, no
    prior state. *)
Definition vanished : PlannedChangeResourceInstancePlanned.t :=
  {| ResourceInstanceObjectAddr :=
       {| Component := "component.web";
          Item := {| ResourceInstance :=
                       {| addrs.Mode := addrs.ManagedResourceMode;
                          addrs.Type_ := "aws_instance";
                          addrs.String_ := "aws_instance.server" |};
                     DeposedKey := "" |} |};
     ChangeSrc := None;
     PriorStateSrc := None;
     ProviderConfigAddr :=
       {| addrs.Provider := "registry.terraform.io/hashicorp/aws";
          addrs.ConfigString := "provider[registry.terraform.io/hashicorp/aws]" |};
     Schema := None |}.



Section AsSpecified.
Context `{Encoders}.


End AsSpecified.

End Stackplan.

(* ===================================================================== *)
(** ** stackplan.PlannedChangeRootInputValue *)
(* ===================================================================== *)

Module StackplanInputs.
Import Stackplan.

Module stackaddrs.
Record InputVariable : Type := { Name : string }.
End stackaddrs.

Module tfstackdata1.
Module PlanRootInputValue.
Record t : Type := {
  Name : string;
  Value : option bytes;
  RequiredOnApply : bool
}.
End PlanRootInputValue.
End tfstackdata1.

Module terraform1.
Record PlannedChange_InputVariableDuringApply : Type := { Name : string }.

(** The event of a root input value: the only [Description] alternative
    this change type emits is [ApplyTimeInputVariable], so the descriptions
    are kept by its payload. *)
Module PlannedChange.
Record t : Type := {
  Raw : list anypb.Any;
  Descriptions : list PlannedChange_InputVariableDuringApply
}.
End PlannedChange.
End terraform1.

(** What the change calls in other packages. *)
Class InputEncoders : Type := {
  (** [plans.NewDynamicValue] at [cty.DynamicPseudoType] *)
  NewPlanDynamicValue : Conditions.cty.Value -> result bytes;
  (** [anypb.MarshalFrom] on a [PlanRootInputValue] *)
  MarshalRootInputValue : tfstackdata1.PlanRootInputValue.t -> result anypb.Any;
  (** the [String] method of the variable address, for the error message *)
  InputVariableString : stackaddrs.InputVariable -> string
}.

(** [Value] is [None] for [cty.NilVal], the value of an ephemeral
    variable. *)
Record PlannedChangeRootInputValue : Type := {
  Addr : stackaddrs.InputVariable;
  Value : option Conditions.cty.Value;
  RequiredOnApply : bool
}.

Section WithInputEncoders.
Context `{InputEncoders}.

(** The message the change wraps into its raw record. *)
Definition rootInputMessage (pc : PlannedChangeRootInputValue) (ppdv : option bytes)
  : tfstackdata1.PlanRootInputValue.t :=
  {| tfstackdata1.PlanRootInputValue.Name := stackaddrs.Name (Addr pc);
     tfstackdata1.PlanRootInputValue.Value := ppdv;
     tfstackdata1.PlanRootInputValue.RequiredOnApply := RequiredOnApply pc |}.

(** [PlannedChangeRootInputValue.PlannedChangeProto]. *)
Definition RootInputValuePlannedChangeProto (pc : PlannedChangeRootInputValue)
  : result terraform1.PlannedChange.t :=
  let encoded : result (option bytes) :=
    match Value pc with
    | Some value =>
        match NewPlanDynamicValue value with
        | Err err =>
            Err ("can't encode value for " +:+ InputVariableString (Addr pc)
                   +:+ ": " +:+ err)
        | Ok dv => Ok (Some dv)
        end
    | None => Ok None
    end in
  match encoded with
  | Err err => Err err
  | Ok ppdv =>
      match MarshalRootInputValue (rootInputMessage pc ppdv) with
      | Err err => Err err
      | Ok raw =>
          let descs :=
            if RequiredOnApply pc
            then [{| terraform1.Name := stackaddrs.Name (Addr pc) |}]
            else [] in
          Ok {| terraform1.PlannedChange.Raw := [raw];
                terraform1.PlannedChange.Descriptions := descs |}
      end
  end.
End WithInputEncoders.

(** Encoders that cannot encode structural values. *)
Definition wireInputEncoders : InputEncoders :=
  {| NewPlanDynamicValue := fun v =>
       match Conditions.cty.raw v with
       | Conditions.cty.RStructural name => Err ("unsupported type " +:+ name)
       | Conditions.cty.RString s => Ok s
       | _ => Ok "scalar"
       end;
     MarshalRootInputValue := fun m =>
       Ok {| anypb.TypeUrl := "type.googleapis.com/terraform.stacks1.PlanRootInputValue";
             anypb.Value :=
               match tfstackdata1.PlanRootInputValue.Value m with
               | Some v => tfstackdata1.PlanRootInputValue.Name m +:+ "=" +:+ v
               | None => tfstackdata1.PlanRootInputValue.Name m
               end |};
     InputVariableString := fun addr => "var." +:+ stackaddrs.Name addr |}.

(** Encoders like [wireEncoders] that cannot convert any change. *)
Definition rejectingEncoders : @Encoders wireReasons :=
  {| MarshalFrom := @MarshalFrom wireReasons wireEncoders;
     ResourceChangeToProto := fun _ => Err "unsupported change";
     ResourceInstanceObjectStateToTFStackData1 :=
       @ResourceInstanceObjectStateToTFStackData1 wireReasons wireEncoders;
     ChangeTypesForPlanAction := @ChangeTypesForPlanAction wireReasons wireEncoders;
     DeferredReasonToProto := @DeferredReasonToProto wireReasons wireEncoders;
     NewAttributePath := @NewAttributePath wireReasons wireEncoders;
     NewDynamicValue := @NewDynamicValue wireReasons wireEncoders;
     NewResourceInstanceInStackAddr :=
       @NewResourceInstanceInStackAddr wireReasons wireEncoders;
     NewResourceInstanceObjectInStackAddr :=
       @NewResourceInstanceObjectInStackAddr wireReasons wireEncoders;
     ResourceModeForProto := @ResourceModeForProto wireReasons wireEncoders |}.

(** A resource instance that is updated in place after a move, with one
    attribute forcing nothing and an import in progress. *)
Definition movedServer : ResourceInstanceChangeSrc.t :=
  {| ResourceInstanceChangeSrc.Addr :=
       {| addrs.Mode := addrs.ManagedResourceMode;
          addrs.Type_ := "aws_instance";
          addrs.String_ := "aws_instance.server" |};
     ResourceInstanceChangeSrc.PrevRunAddr :=
       {| addrs.Mode := addrs.ManagedResourceMode;
          addrs.Type_ := "aws_instance";
          addrs.String_ := "aws_instance.old" |};
     ResourceInstanceChangeSrc.ProviderAddr :=
       {| addrs.Provider := "registry.terraform.io/hashicorp/aws";
          addrs.ConfigString := "provider[registry.terraform.io/hashicorp/aws]" |};
     ResourceInstanceChangeSrc.Action := 0%Z;
     ResourceInstanceChangeSrc.Before := "before";
     ResourceInstanceChangeSrc.After := "after";
     ResourceInstanceChangeSrc.BeforeSensitivePaths := [];
     ResourceInstanceChangeSrc.AfterSensitivePaths := [["password"]];
     ResourceInstanceChangeSrc.RequiredReplace := {[ ["ami"] ]};
     ResourceInstanceChangeSrc.Importing :=
       Some {| ImportingSrc.ID := "i-0abc"; ImportingSrc.Unknown := false |} |}.

Definition movedServerPlanned : PlannedChangeResourceInstancePlanned.t :=
  {| PlannedChangeResourceInstancePlanned.ResourceInstanceObjectAddr :=
       PlannedChangeResourceInstancePlanned.ResourceInstanceObjectAddr vanished;
     PlannedChangeResourceInstancePlanned.ChangeSrc := Some movedServer;
     PlannedChangeResourceInstancePlanned.PriorStateSrc := Some "prior";
     PlannedChangeResourceInstancePlanned.ProviderConfigAddr :=
       PlannedChangeResourceInstancePlanned.ProviderConfigAddr vanished;
     PlannedChangeResourceInstancePlanned.Schema := Some "schema" |}.

End StackplanInputs.

(* ===================================================================== *)
(** * Properties of the change slice *)
(* ===================================================================== *)

Section DifferFacts.
Import Differ.

Lemma index_inRange (g : slice) (ix : Z) :
  inRange ix g -> exists v, index g ix = Some v.
Proof.
  unfold inRange, index, len. destruct g as [l|]; [|lia].
  intros Hr. destruct (Z.ltb_spec ix 0); [lia|].
  apply lookup_lt_is_Some_2. lia.
Qed.

Lemma getFromGenericSlice_inRange (g : slice) (ix : Z) :
  inRange ix g ->
  exists v, index g ix = Some v /\ getFromGenericSlice g ix = Some (v, true).
Proof.
  intros Hr. destruct (index_inRange g ix Hr) as [v Hv]. exists v. split; [done|].
  unfold getFromGenericSlice. unfold inRange in Hr.
  destruct g as [l|]; [|simpl in Hr; lia].
  destruct (Z.ltb_spec ix 0); [lia|].
  destruct (Z.geb_spec ix (len (Some l))); [lia|].
  simpl orb. cbv iota. rewrite Hv. reflexivity.
Qed.

Lemma getFromGenericSlice_outOfRange (g : slice) (ix : Z) :
  ~ inRange ix g -> getFromGenericSlice g ix = Some (GNil, false).
Proof.
  intros Hr. unfold getFromGenericSlice. unfold inRange in Hr.
  destruct g as [l|]; [|done].
  destruct (Z.ltb_spec ix 0); [done|].
  destruct (Z.geb_spec ix (len (Some l))); [done|]. lia.
Qed.

(** Whatever the index, [getFromGenericSlice] returns, and its flag says
    whether the index was in range. *)
Lemma getFromGenericSlice_total (g : slice) (ix : Z) :
  exists v, getFromGenericSlice g ix = Some (v, bool_decide (inRange ix g))
    /\ (~ inRange ix g -> v = GNil)
    /\ (inRange ix g -> index g ix = Some v).
Proof.
  destruct (decide (inRange ix g)) as [Hr|Hr].
  - destruct (getFromGenericSlice_inRange g ix Hr) as (v & Hv & Hg).
    exists v. rewrite bool_decide_eq_true_2 by done. done.
  - exists GNil. rewrite bool_decide_eq_false_2 by done.
    rewrite getFromGenericSlice_outOfRange by done. done.
Qed.

Lemma mostRelevantIx_spec {M} (s : ChangeSlice.t M) (beforeIx afterIx : Z) :
  mostRelevantIx s beforeIx afterIx =
    if decide (inRange beforeIx (ChangeSlice.Before s)) then beforeIx else afterIx.
Proof.
  unfold mostRelevantIx, inRange.
  destruct (Z.ltb_spec beforeIx 0), (Z.geb_spec beforeIx (len (ChangeSlice.Before s)));
    simpl; case_decide; lia.
Qed.
End DifferFacts.

Section DifferClaims.
Import Differ.

(** What [getChild] returns, field by field. *)
Lemma getChild_fields {M} `{Matcher M} (s : ChangeSlice.t M) (beforeIx afterIx : Z) :
  exists before after unknown beforeSensitive afterSensitive eu ebs eas,
    getFromGenericSlice (ChangeSlice.Before s) beforeIx
      = Some (before, bool_decide (inRange beforeIx (ChangeSlice.Before s)))
    /\ getFromGenericSlice (ChangeSlice.After s) afterIx
      = Some (after, bool_decide (inRange afterIx (ChangeSlice.After s)))
    /\ getFromGenericSlice (ChangeSlice.Unknown s) afterIx = Some (unknown, eu)
    /\ getFromGenericSlice (ChangeSlice.BeforeSensitive s) beforeIx
      = Some (beforeSensitive, ebs)
    /\ getFromGenericSlice (ChangeSlice.AfterSensitive s) afterIx
      = Some (afterSensitive, eas)
    /\ getChild s beforeIx afterIx =
         Some {| Change.BeforeExplicit := bool_decide (inRange beforeIx (ChangeSlice.Before s));
                 Change.AfterExplicit := bool_decide (inRange afterIx (ChangeSlice.After s));
                 Change.Before := before;
                 Change.After := after;
                 Change.Unknown := unknown;
                 Change.BeforeSensitive := beforeSensitive;
                 Change.AfterSensitive := afterSensitive;
                 Change.ReplacePaths :=
                   GetChildWithIndex (ChangeSlice.ReplacePaths s)
                     (mostRelevantIx s beforeIx afterIx);
                 Change.RelevantAttributes :=
                   GetChildWithIndex (ChangeSlice.RelevantAttributes s)
                     (mostRelevantIx s beforeIx afterIx) |}.
Proof.
  destruct (getFromGenericSlice_total (ChangeSlice.Before s) beforeIx) as (b & Hb & _).
  destruct (getFromGenericSlice_total (ChangeSlice.After s) afterIx) as (a & Ha & _).
  destruct (getFromGenericSlice_total (ChangeSlice.Unknown s) afterIx) as (u & Hu & _).
  destruct (getFromGenericSlice_total (ChangeSlice.BeforeSensitive s) beforeIx)
    as (bs & Hbs & _).
  destruct (getFromGenericSlice_total (ChangeSlice.AfterSensitive s) afterIx)
    as (as_ & Has & _).
  exists b, a, u, bs, as_. do 3 eexists.
  repeat (split; [eassumption|]).
  unfold getChild. rewrite Hb, Ha, Hu, Hbs, Has. reflexivity.
Qed.

(** C9. [getChild] returns a child for every pair of integers, negative
    and out-of-range ones included: the index expression never panics. The
    child's [BeforeExplicit] (resp. [AfterExplicit]) flag is false exactly
    when the before (resp. after) index is out of range of its array, and
    the value on an out-of-range side is nil. A value that is not an array
    decomposes to the nil slice, of length 0, on which every index is out
    of range. *)
Theorem getChild_total_explicit_flags :
  (forall (M : Type) (HM : Matcher M) (s : ChangeSlice.t M) (beforeIx afterIx : Z),
     exists c, getChild s beforeIx afterIx = Some c
       /\ (Change.BeforeExplicit c = false <-> ~ inRange beforeIx (ChangeSlice.Before s))
       /\ (Change.AfterExplicit c = false <-> ~ inRange afterIx (ChangeSlice.After s))
       /\ (~ inRange beforeIx (ChangeSlice.Before s) -> Change.Before c = GNil)
       /\ (~ inRange afterIx (ChangeSlice.After s) -> Change.After c = GNil))
  /\ (forall g : generic, (forall elems, g <> GSlice elems) ->
        genericToSlice g = None
        /\ len (genericToSlice g) = 0%Z
        /\ forall ix, getFromGenericSlice (genericToSlice g) ix = Some (GNil, false))
  /\ (forall (M : Type) (HM : Matcher M) (change : Change.t M) (beforeIx afterIx : Z),
        (forall elems, Change.Before change <> GSlice elems) ->
        (forall elems, Change.After change <> GSlice elems) ->
        exists c, getChild (asSlice change) beforeIx afterIx = Some c
          /\ Change.BeforeExplicit c = false /\ Change.AfterExplicit c = false
          /\ Change.Before c = GNil /\ Change.After c = GNil).
Proof.
  assert (Hnon : forall g : generic, (forall elems, g <> GSlice elems) ->
                   genericToSlice g = None).
  { intros g Hg. destruct g; try reflexivity. exfalso. eapply Hg. reflexivity. }
  split; [|split].
  - intros M HM s beforeIx afterIx.
    destruct (getFromGenericSlice_total (ChangeSlice.Before s) beforeIx)
      as (b & Hb & Hbnil & _).
    destruct (getFromGenericSlice_total (ChangeSlice.After s) afterIx)
      as (a & Ha & Hanil & _).
    destruct (getChild_fields s beforeIx afterIx)
      as (b' & a' & u & bs & as_ & eu & ebs & eas & Hb' & Ha' & _ & _ & _ & Hc).
    rewrite Hb in Hb'. rewrite Ha in Ha'.
    injection Hb' as <-. injection Ha' as <-.
    eexists. split; [exact Hc|]. simpl.
    rewrite !bool_decide_eq_false. tauto.
  - intros g Hg. rewrite (Hnon g Hg). repeat split; reflexivity.
  - intros M HM change beforeIx afterIx HB HA.
    unfold getChild, asSlice. simpl.
    rewrite (Hnon _ HB), (Hnon _ HA). simpl.
    destruct (getFromGenericSlice_total (genericToSlice (Change.Unknown change)) afterIx)
      as (u & Hu & _).
    destruct (getFromGenericSlice_total (genericToSlice (Change.BeforeSensitive change))
                beforeIx) as (bs & Hbs & _).
    destruct (getFromGenericSlice_total (genericToSlice (Change.AfterSensitive change))
                afterIx) as (as_ & Has & _).
    rewrite Hu. simpl. rewrite Hbs. simpl. rewrite Has. simpl.
    eexists. split; [reflexivity|]. simpl. tauto.
Qed.

(** C2, as specified, fails when both indices are in range and differ: on
    a two-element list, [getChild 0 1] reads the after-sensitivity at the
    after-index 1 (true), not at the before-index 0 (false). *)
Lemma tieBreakAsSpecified_fails : ~ tieBreakAsSpecified twoElements 0 1.
Proof.
  intros (c & Hc & _ & _ & Hboth).
  vm_compute in Hc. injection Hc as <-.
  destruct Hboth as (_ & _ & Has).
  - unfold inRange. simpl. lia.
  - unfold inRange. simpl. lia.
  - vm_compute in Has. discriminate.
Qed.

(** It also fails when both indices are out of range: the matcher is asked
    for the after-index 1, so the sub-tree is not the before-index one. *)
Lemma tieBreakAsSpecified_fails_out_of_range : ~ tieBreakAsSpecified noElements 0 1.
Proof.
  intros (c & Hc & _ & Hafter & _).
  vm_compute in Hc. injection Hc as <-.
  destruct Hafter as (Hrp & _).
  - unfold inRange. simpl. lia.
  - vm_compute in Hrp. discriminate.
Qed.

(** C2, amended. The replace-path and relevant-attribute sub-trees of the
    child come from the before-index whenever that index is in range of
    the before-array, and from the after-index otherwise, whether or not
    the after-index is in range. The sensitivity values are not tie-broken:
    the before-sensitivity is read at the before-index and the
    after-sensitivity at the after-index. *)
Theorem getChild_index_tiebreak :
  forall (M : Type) (HM : Matcher M) (s : ChangeSlice.t M) (beforeIx afterIx : Z),
    exists c, getChild s beforeIx afterIx = Some c
      /\ (inRange beforeIx (ChangeSlice.Before s) ->
          Change.ReplacePaths c = GetChildWithIndex (ChangeSlice.ReplacePaths s) beforeIx
          /\ Change.RelevantAttributes c
               = GetChildWithIndex (ChangeSlice.RelevantAttributes s) beforeIx)
      /\ (~ inRange beforeIx (ChangeSlice.Before s) ->
          Change.ReplacePaths c = GetChildWithIndex (ChangeSlice.ReplacePaths s) afterIx
          /\ Change.RelevantAttributes c
               = GetChildWithIndex (ChangeSlice.RelevantAttributes s) afterIx)
      /\ fst <$> getFromGenericSlice (ChangeSlice.BeforeSensitive s) beforeIx
           = Some (Change.BeforeSensitive c)
      /\ fst <$> getFromGenericSlice (ChangeSlice.AfterSensitive s) afterIx
           = Some (Change.AfterSensitive c).
Proof.
  intros M HM s beforeIx afterIx.
  destruct (getChild_fields s beforeIx afterIx)
    as (b & a & u & bs & as_ & eu & ebs & eas & _ & _ & _ & Hbs & Has & Hc).
  eexists. split; [exact Hc|]. simpl.
  rewrite mostRelevantIx_spec, Hbs, Has.
  repeat split; case_decide; done.
Qed.
End DifferClaims.

(* ===================================================================== *)
(** * Properties of the check evaluator *)
(* ===================================================================== *)

Section ConditionFacts.
Import Conditions.

Lemma HasErrors_app (d1 d2 : tfdiags.Diagnostics) :
  tfdiags.HasErrors (d1 ++ d2) = tfdiags.HasErrors d1 || tfdiags.HasErrors d2.
Proof. unfold tfdiags.HasErrors. apply existsb_app. Qed.

Lemma HasErrors_Append1 (diags : tfdiags.Diagnostics) (d : hcl.Diagnostic) :
  tfdiags.HasErrors (tfdiags.Append1 diags d)
  = tfdiags.HasErrors diags || tfdiags.isError (tfdiags.FromHCL d).
Proof.
  unfold tfdiags.Append1. rewrite HasErrors_app. simpl. by rewrite orb_false_r.
Qed.

Lemma Append1_neq (diags : tfdiags.Diagnostics) (d : hcl.Diagnostic) :
  tfdiags.Append1 diags d <> diags.
Proof.
  unfold tfdiags.Append1. intros Heq.
  apply (f_equal length) in Heq. rewrite length_app in Heq. simpl in Heq. lia.
Qed.

(** [validateCheckRule] panics exactly when the rule type and the object
    disagree, whatever the rule. *)
Lemma validateCheckRule_returns typ rule ctx self keyData :
  selfFits typ self = true ->
  exists validation diags,
    validateCheckRule typ rule ctx self keyData = Returns (validation, diags).
Proof.
  intros Hfit. unfold validateCheckRule.
  destruct (ReferencesInExpr (configs.Condition rule)) as [refs d1].
  destruct (ReferencesInExpr (configs.ErrorMessage rule)) as [moreRefs d2].
  destruct typ, self; try discriminate Hfit;
    repeat match goal with
           | |- context [let '(_, _) := ?e in _] => destruct e
           end; eauto.
Qed.

Lemma validateCheckRule_fits typ rule ctx self keyData r :
  validateCheckRule typ rule ctx self keyData = Returns r -> selfFits typ self = true.
Proof.
  unfold validateCheckRule.
  destruct (ReferencesInExpr (configs.Condition rule)) as [refs d1].
  destruct (ReferencesInExpr (configs.ErrorMessage rule)) as [moreRefs d2].
  destruct typ, self; simpl; try discriminate; reflexivity.
Qed.

(** The diagnostics of validation end with those of the failure message,
    and the validated message is the evaluated one. *)
Lemma validateCheckRule_message typ rule ctx self keyData validation diags :
  validateCheckRule typ rule ctx self keyData = Returns (validation, diags) ->
  ErrorMessage validation
    = fst (evalCheckErrorMessage (configs.ErrorMessage rule) (Ctx validation))
  /\ exists pre,
      diags = pre ++ snd (evalCheckErrorMessage (configs.ErrorMessage rule) (Ctx validation)).
Proof.
  unfold validateCheckRule.
  destruct (ReferencesInExpr (configs.Condition rule)) as [refs d1].
  destruct (ReferencesInExpr (configs.ErrorMessage rule)) as [moreRefs d2].
  set (references := match typ with
                     | addrs.ResourcePostcondition => _
                     | addrs.CheckAssertion => _
                     | _ => _ end).
  destruct references as [[selfRef sourceRef]|msg]; [|discriminate].
  destruct (lang.EvalContext _ _) as [hclCtx d3].
  destruct (evalCheckErrorMessage (configs.ErrorMessage rule) hclCtx) as [m d4] eqn:Hm.
  intros [= <- <-]. simpl. rewrite Hm. simpl. split; [reflexivity|].
  eexists. reflexivity.
Qed.

Lemma evalCondition_inv typ rule ctx self keyData validation resultVal diags :
  evalCondition typ rule ctx self keyData = Returns (validation, resultVal, diags) ->
  exists vdiags hclDiags,
    validateCheckRule typ rule ctx self keyData = Returns (validation, vdiags)
    /\ Value (configs.Condition rule) (Ctx validation) = (resultVal, hclDiags)
    /\ diags = tfdiags.AppendHCL vdiags hclDiags.
Proof.
  unfold evalCondition.
  destruct (validateCheckRule typ rule ctx self keyData) as [[validation' vdiags]|];
    [|discriminate].
  destruct (Value (configs.Condition rule) (Ctx validation')) as [v hd] eqn:Hv.
  intros [= <- <- <-]. eauto.
Qed.

Lemma evalCondition_returns typ rule ctx self keyData :
  selfFits typ self = true ->
  exists validation resultVal diags,
    evalCondition typ rule ctx self keyData = Returns (validation, resultVal, diags).
Proof.
  intros Hfit.
  destruct (validateCheckRule_returns typ rule ctx self keyData Hfit)
    as (validation & vdiags & Hv).
  unfold evalCondition. rewrite Hv.
  destruct (Value (configs.Condition rule) (Ctx validation)); eauto.
Qed.

Lemma IsNull_IsKnown (v : cty.Value) : cty.IsNull v = true -> cty.IsKnown v = true.
Proof. unfold cty.IsNull, cty.IsKnown. destruct (cty.raw v); done. Qed.

(** A value that converts to a boolean [b] was known and not null. *)
Lemma Convert_Bool_known (v v' : cty.Value) (b : bool) :
  convert.Convert v cty.Bool = Ok v' -> cty.raw v' = cty.RBool b ->
  cty.IsKnown v = true /\ cty.IsNull v = false.
Proof.
  unfold convert.Convert. case_decide as Hty.
  - intros [= <-] Hraw. unfold cty.IsKnown, cty.IsNull. by rewrite Hraw.
  - destruct v as [r m]. unfold cty.TypeOf, cty.IsKnown, cty.IsNull in *. simpl in *.
    destruct r as [ty|ty| | | |]; simpl; try done.
    + destruct ty; simpl; try done; intros [= <-]; simpl; done.
    + destruct ty; simpl; try done; intros [= <-]; simpl; done.
Qed.

Lemma StatusForCtyValue_bool (v : cty.Value) (b : bool) :
  cty.raw v = cty.RBool b ->
  checks.StatusForCtyValue (cty.Unmark v).1
  = if b then checks.StatusPass else checks.StatusFail.
Proof.
  intros Hraw. unfold checks.StatusForCtyValue, cty.Unmark, cty.IsKnown, cty.IsNull,
    cty.TypeOf. simpl. rewrite Hraw. simpl. by destruct b.
Qed.

Lemma evalCheckRule_returns typ rule ctx self keyData severity :
  selfFits typ self = true ->
  exists result diags,
    evalCheckRule typ rule ctx self keyData severity = Returns (result, diags).
Proof.
  intros Hfit.
  destruct (validateCheckRule_returns typ rule ctx self keyData Hfit)
    as (validation & vdiags & Hv).
  unfold evalCheckRule. rewrite Hv.
  repeat case_match; eauto.
Qed.

(** What the evaluation of a failure message contributes. *)
Lemma evalCheckErrorMessage_diags (expr : Expression) (hclCtx : HclEvalContext) m md :
  Value expr hclCtx = (m, md) ->
  (hcl.HasErrors md = false ->
   ((exists err, convert.Convert m cty.String = Err err)
    \/ (exists m', convert.Convert m cty.String = Ok m' /\ cty.IsNull m' = true)) ->
   tfdiags.HasErrors (evalCheckErrorMessage expr hclCtx).2 = true)
  /\ (forall m', convert.Convert m cty.String = Ok m' -> cty.IsNull m' = false ->
      forall d, d ∈ (evalCheckErrorMessage expr hclCtx).2 -> tfdiags.isError d = true ->
                d ∈ map tfdiags.FromHCL md).
Proof.
  intros Hv. unfold evalCheckErrorMessage. rewrite Hv. split.
  - intros Hmd [(err & Hc) | (m' & Hc & Hnull)]; rewrite Hmd, Hc.
    + simpl. rewrite HasErrors_Append1. by rewrite orb_true_r.
    + rewrite (IsNull_IsKnown _ Hnull), Hnull. simpl.
      rewrite HasErrors_Append1. by rewrite orb_true_r.
  - intros m' Hc Hnull d. rewrite Hc, Hnull.
    destruct (hcl.HasErrors md); [done|].
    destruct (cty.IsKnown m'); simpl; [|done].
    case_bool_decide; simpl; [|done].
    unfold tfdiags.Append1, tfdiags.AppendHCL. simpl.
    rewrite elem_of_app, list_elem_of_singleton.
    intros [Hin | ->]; [done|]. discriminate.
Qed.

(** The loop reports every rule at its index and leaves the entries of
    earlier indices alone. *)
Lemma evalCheckRulesFrom_reports typ ctx self keyData severity :
  selfFits typ self = true ->
  forall rules k diags st,
    exists ds st',
      evalCheckRulesFrom typ k rules ctx self keyData severity diags st = Returns (ds, st')
      /\ (forall j rule result rd,
            rules !! j = Some rule ->
            evalCheckRule typ rule ctx self keyData severity = Returns (result, rd) ->
            checks.statuses st' !! (self, typ, k + j) = Some (Status result)
            /\ (Status result = checks.StatusFail ->
                checks.failureMsgs st' !! (self, typ, k + j) = Some (FailureMessage result)
                /\ checks.failureRefs st' !! (self, typ, k + j)
                     = Some (map addrs.Subject (Refs result))))
      /\ (forall i, i < k ->
            checks.statuses st' !! (self, typ, i) = checks.statuses st !! (self, typ, i)
            /\ checks.failureMsgs st' !! (self, typ, i)
                 = checks.failureMsgs st !! (self, typ, i)
            /\ checks.failureRefs st' !! (self, typ, i)
                 = checks.failureRefs st !! (self, typ, i)).
Proof.
  intros Hfit rules. induction rules as [|rule rest IH]; intros k diags st.
  - simpl. do 2 eexists. split; [reflexivity|]. split; [|done].
    intros j r result rd Hj. by rewrite lookup_nil in Hj.
  - destruct (evalCheckRule_returns typ rule ctx self keyData severity Hfit)
      as (result & rd & Hr).
    simpl. rewrite Hr.
    set (st1 := if bool_decide (Status result = checks.StatusFail) then _ else _).
    destruct (IH (S k) (tfdiags.Append diags rd) st1) as (ds & st' & Hrun & Hrep & Hkeep).
    exists ds, st'. split; [exact Hrun|]. split.
    + intros j r result' rd' Hj Hr'. destruct j as [|j].
      * injection Hj as <-. rewrite Hr in Hr'. injection Hr' as <- <-.
        rewrite Nat.add_0_r.
        destruct (Hkeep k (Nat.lt_succ_diag_r k)) as (Hs & Hm & Hf).
        rewrite Hs, Hm, Hf. subst st1.
        case_bool_decide as Hfail; simpl.
        -- rewrite !lookup_insert_eq. by rewrite Hfail.
        -- rewrite lookup_insert_eq. done.
      * replace (k + S j) with (S k + j) by lia. exact (Hrep j r result' rd' Hj Hr').
    + intros i Hi.
      destruct (Hkeep i (Nat.lt_lt_succ_r _ _ Hi)) as (Hs & Hm & Hf).
      rewrite Hs, Hm, Hf. subst st1.
      assert ((self, typ, k) <> (self, typ, i)) as Hne by (intros [=]; lia).
      case_bool_decide; simpl; rewrite ?lookup_insert_ne by done; done.
Qed.
End ConditionFacts.

(** Replays [evalCheckRule] up to its early return, from what
    [evalCondition] gave. *)
Ltac open_rule H :=
  let vdiags := fresh "vdiags" in
  let hclDiags := fresh "hclDiags" in
  let Hvalidate := fresh "Hvalidate" in
  let Hvalue := fresh "Hvalue" in
  apply evalCondition_inv in H as (vdiags & hclDiags & Hvalidate & Hvalue & ->);
  unfold Conditions.evalCheckRule;
  rewrite Hvalidate, Hvalue.

Section ConditionClaims.
Import Conditions.

(** The status of a rule whose condition converts to the boolean [b]. *)
Lemma evalCheckRule_boolean typ rule ctx self keyData severity validation resultVal
    diags resultVal' b :
  evalCondition typ rule ctx self keyData = Returns (validation, resultVal, diags) ->
  convert.Convert resultVal cty.Bool = Ok resultVal' ->
  cty.raw resultVal' = cty.RBool b ->
  exists result diags',
    evalCheckRule typ rule ctx self keyData severity = Returns (result, diags')
    /\ Status result =
         (if tfdiags.HasErrors diags then checks.StatusError
          else if b then checks.StatusPass else checks.StatusFail).
Proof.
  intros Hcond Hconv Hraw.
  destruct (Convert_Bool_known _ _ _ Hconv Hraw) as [Hknown Hnull].
  pose proof (StatusForCtyValue_bool _ _ Hraw) as Hstatus.
  open_rule Hcond.
  destruct (tfdiags.HasErrors (tfdiags.AppendHCL vdiags hclDiags)).
  - do 2 eexists. split; reflexivity.
  - rewrite Hknown, Hnull, Hconv. simpl.
    unfold cty.Unmark in *. simpl in *. rewrite Hstatus.
    destruct b; simpl; do 2 eexists; split; reflexivity.
Qed.

(** C4. When the condition of a rule evaluates to null, or to a known,
    non-null value that does not convert to a boolean, [evalCheckRule]
    returns the status error and its diagnostics hold one of error
    severity, whatever severity the caller passed: the result is the same
    for every severity. Unless an error was already reported while
    validating the rule or evaluating the condition, the diagnostic is the
    "Invalid condition result" one, appended at error severity. *)
Theorem invalid_condition_is_error :
  forall typ rule ctx self keyData severity validation resultVal diags,
    evalCondition typ rule ctx self keyData = Returns (validation, resultVal, diags) ->
    (cty.IsNull resultVal = true
     \/ (cty.IsKnown resultVal = true /\ cty.IsNull resultVal = false
         /\ exists err, convert.Convert resultVal cty.Bool = Err err)) ->
    exists result diags',
      evalCheckRule typ rule ctx self keyData severity = Returns (result, diags')
      /\ Status result = checks.StatusError
      /\ tfdiags.HasErrors diags' = true
      /\ (tfdiags.HasErrors diags = false ->
          exists d, diags' = tfdiags.Append1 diags d
            /\ hcl.Severity d = hcl.DiagError
            /\ hcl.Summary d = errInvalidCondition)
      /\ (forall severity',
            evalCheckRule typ rule ctx self keyData severity' = Returns (result, diags')).
Proof.
  intros typ rule ctx self keyData severity validation resultVal diags Hcond Hbad.
  open_rule Hcond.
  destruct (tfdiags.HasErrors (tfdiags.AppendHCL vdiags hclDiags)) eqn:Herr.
  - do 2 eexists. repeat split; try done.
  - destruct Hbad as [Hnull | (Hknown & Hnull & err & Hconv)].
    + rewrite (IsNull_IsKnown _ Hnull), Hnull. simpl.
      do 2 eexists. split; [reflexivity|]. simpl.
      split; [reflexivity|]. split; [|split; [|reflexivity]].
      * rewrite HasErrors_Append1. by rewrite orb_true_r.
      * intros _. eexists. split; [reflexivity|]. split; reflexivity.
    + rewrite Hknown, Hnull, Hconv. simpl.
      do 2 eexists. split; [reflexivity|]. simpl.
      split; [reflexivity|]. split; [|split; [|reflexivity]].
      * rewrite HasErrors_Append1. by rewrite orb_true_r.
      * intros _. eexists. split; [reflexivity|]. split; reflexivity.
Qed.

(** The theorem at [condition = null] of a check block assertion. *)
Lemma invalid_condition_is_error_witness :
  exists result diags',
    evalCheckRule addrs.CheckAssertion nullCondition emptyContext healthCheck
      noRepetition hcl.DiagWarning = Returns (result, diags')
    /\ Status result = checks.StatusError
    /\ tfdiags.HasErrors diags' = true.
Proof.
  destruct (invalid_condition_is_error addrs.CheckAssertion nullCondition emptyContext
              healthCheck noRepetition hcl.DiagWarning
              {| Ctx := []; ErrorMessage := "negative number"; vRefs := [] |}
              (cty.NullVal cty.Bool) [])
    as (result & diags' & Hr & Hs & He & _).
  - reflexivity.
  - left. reflexivity.
  - exists result, diags'. repeat split; assumption.
Defined.

(** C5, as specified, fails on a rule whose condition is unknown and whose
    error message is null: the null message is an error of the
    configuration, and the status is error, not unknown. *)
Lemma unknownAsSpecified_fails :
  ~ unknownAsSpecified addrs.CheckAssertion unknownNullMessage emptyContext healthCheck
      noRepetition hcl.DiagError.
Proof.
  intros Hspec.
  destruct (Hspec {| Ctx := []; ErrorMessage := ""; vRefs := [] |}
              (cty.UnknownVal cty.Bool)
              [tfdiags.FromHCL
                 {| hcl.Severity := hcl.DiagError;
                    hcl.Summary := "Invalid error message";
                    hcl.Detail := "Unsuitable value for error message: must not be null.";
                    hcl.Subject := Some "main.tf:4,21-25" |}])
    as (result & diags' & Hr & Hs & _).
  - reflexivity.
  - reflexivity.
  - vm_compute in Hr. injection Hr as <- <-. discriminate Hs.
Qed.

(** C5, amended. When the condition value of a rule is not known yet and
    no error was reported while validating the rule or evaluating the
    condition, [evalCheckRule] returns the status unknown; a warning is
    appended exactly when the rule is a check block assertion, and no
    error is added. *)
Theorem unknown_condition_is_unknown :
  forall typ rule ctx self keyData severity validation resultVal diags,
    evalCondition typ rule ctx self keyData = Returns (validation, resultVal, diags) ->
    cty.IsKnown resultVal = false ->
    tfdiags.HasErrors diags = false ->
    exists result diags',
      evalCheckRule typ rule ctx self keyData severity = Returns (result, diags')
      /\ Status result = checks.StatusUnknown
      /\ ((exists w, diags' = tfdiags.Append1 diags w /\ hcl.Severity w = hcl.DiagWarning)
          <-> typ = addrs.CheckAssertion)
      /\ (typ <> addrs.CheckAssertion -> diags' = diags)
      /\ tfdiags.HasErrors diags' = false.
Proof.
  intros typ rule ctx self keyData severity validation resultVal diags Hcond Hunk Herr.
  open_rule Hcond. rewrite Herr, Hunk. simpl.
  do 2 eexists. split; [reflexivity|]. simpl. split; [reflexivity|].
  case_bool_decide as Htyp.
  - repeat split.
    + done.
    + intros _. eexists. split; reflexivity.
    + done.
    + rewrite HasErrors_Append1, Herr. reflexivity.
  - repeat split.
    + intros (w & Hw & _). symmetry in Hw. by apply Append1_neq in Hw.
    + done.
    + done.
Qed.

(** The theorem at an unknown condition of a check block assertion. *)
Lemma unknown_condition_is_unknown_witness :
  exists result diags',
    evalCheckRule addrs.CheckAssertion unknownCondition emptyContext healthCheck
      noRepetition hcl.DiagError = Returns (result, diags')
    /\ Status result = checks.StatusUnknown
    /\ tfdiags.HasErrors diags' = false.
Proof.
  destruct (unknown_condition_is_unknown addrs.CheckAssertion unknownCondition
              emptyContext healthCheck noRepetition hcl.DiagError
              {| Ctx := []; ErrorMessage := "negative number"; vRefs := [] |}
              (cty.UnknownVal cty.Bool) [])
    as (result & diags' & Hr & Hs & _ & _ & He).
  - reflexivity.
  - reflexivity.
  - reflexivity.
  - exists result, diags'. repeat split; assumption.
Defined.

(** C3, as specified, fails on a rule whose condition is true and whose
    error message is null: the status is error, not pass. *)
Lemma statusFollowsConditionAsSpecified_fails :
  ~ statusFollowsConditionAsSpecified addrs.CheckAssertion passingNullMessage
      emptyContext healthCheck noRepetition hcl.DiagError.
Proof.
  intros Hspec.
  destruct (Hspec {| Ctx := []; ErrorMessage := ""; vRefs := [] |}
              cty.True_
              [tfdiags.FromHCL
                 {| hcl.Severity := hcl.DiagError;
                    hcl.Summary := "Invalid error message";
                    hcl.Detail := "Unsuitable value for error message: must not be null.";
                    hcl.Subject := Some "main.tf:4,21-25" |}]
              true)
    as (result & diags' & Hr & Hs).
  - reflexivity.
  - reflexivity.
  - vm_compute in Hr. injection Hr as <- <-. discriminate Hs.
Qed.

(** C3, amended. When the condition of a rule evaluates to a boolean [b]
    (after conversion), the status is error if an error was reported
    while validating the rule or evaluating the condition, and otherwise
    pass for true and fail for false. Evaluating the failure message is
    part of the validation: a message that does not convert to a string,
    or is null, is such an error and makes the status error; a message
    that converts to a non-null string, be it unknown or sensitive, adds
    no error of its own and so leaves the outcome to the condition. *)
Theorem status_follows_condition_unless_errors :
  forall typ rule ctx self keyData severity validation resultVal diags resultVal' b,
    evalCondition typ rule ctx self keyData = Returns (validation, resultVal, diags) ->
    convert.Convert resultVal cty.Bool = Ok resultVal' ->
    cty.raw resultVal' = cty.RBool b ->
    exists result diags',
      evalCheckRule typ rule ctx self keyData severity = Returns (result, diags')
      /\ Status result =
           (if tfdiags.HasErrors diags then checks.StatusError
            else if b then checks.StatusPass else checks.StatusFail)
      /\ (forall m md,
            Value (configs.ErrorMessage rule) (Ctx validation) = (m, md) ->
            hcl.HasErrors md = false ->
            ((exists err, convert.Convert m cty.String = Err err)
             \/ (exists m', convert.Convert m cty.String = Ok m' /\ cty.IsNull m' = true)) ->
            Status result = checks.StatusError)
      /\ (forall m md m',
            Value (configs.ErrorMessage rule) (Ctx validation) = (m, md) ->
            convert.Convert m cty.String = Ok m' ->
            cty.IsNull m' = false ->
            forall d,
              d ∈ (evalCheckErrorMessage (configs.ErrorMessage rule) (Ctx validation)).2 ->
              tfdiags.isError d = true ->
              d ∈ map tfdiags.FromHCL md).
Proof.
  intros typ rule ctx self keyData severity validation resultVal diags resultVal' b
    Hcond Hconv Hraw.
  destruct (evalCheckRule_boolean typ rule ctx self keyData severity validation
              resultVal diags resultVal' b Hcond Hconv Hraw) as (result & diags' & Hr & Hs).
  apply evalCondition_inv in Hcond as (vdiags & hclDiags & Hvalidate & Hvalue & ->).
  destruct (validateCheckRule_message _ _ _ _ _ _ _ Hvalidate) as (_ & pre & Hpre).
  exists result, diags'. split; [exact Hr|]. split; [exact Hs|]. split.
  - intros m md Hm Hmd Hbad. rewrite Hs.
    destruct (evalCheckErrorMessage_diags _ _ _ _ Hm) as [Herr _].
    specialize (Herr Hmd Hbad).
    unfold tfdiags.AppendHCL. rewrite Hpre, !HasErrors_app, Herr.
    by rewrite orb_true_r.
  - intros m md m' Hm Hc Hn.
    destruct (evalCheckErrorMessage_diags _ _ _ _ Hm) as [_ Hok].
    exact (Hok m' Hc Hn).
Qed.

(** The theorem at [condition = true] with a plain message. *)
Lemma status_follows_condition_unless_errors_witness :
  exists result diags',
    evalCheckRule addrs.CheckAssertion passing emptyContext healthCheck
      noRepetition hcl.DiagError = Returns (result, diags')
    /\ Status result = checks.StatusPass.
Proof.
  destruct (status_follows_condition_unless_errors addrs.CheckAssertion passing
              emptyContext healthCheck noRepetition hcl.DiagError
              {| Ctx := []; ErrorMessage := "negative number"; vRefs := [] |}
              cty.True_ [] cty.True_ true)
    as (result & diags' & Hr & Hs & _).
  - reflexivity.
  - reflexivity.
  - reflexivity.
  - exists result, diags'. split; assumption.
Defined.

(** C6, as specified, fails on a rule whose condition is false and whose
    error message is null: the status is error, not fail, and no
    diagnostic of the caller's severity is appended. *)
Lemma failAsSpecified_fails :
  ~ failAsSpecified addrs.CheckAssertion failingNullMessage emptyContext healthCheck
      noRepetition hcl.DiagWarning.
Proof.
  intros Hspec.
  destruct (Hspec {| Ctx := []; ErrorMessage := ""; vRefs := [] |}
              cty.False_
              [tfdiags.FromHCL
                 {| hcl.Severity := hcl.DiagError;
                    hcl.Summary := "Invalid error message";
                    hcl.Detail := "Unsuitable value for error message: must not be null.";
                    hcl.Subject := Some "main.tf:4,21-25" |}])
    as (result & diags' & Hr & Hs & _).
  - reflexivity.
  - reflexivity.
  - vm_compute in Hr. injection Hr as <- <-. discriminate Hs.
Qed.

(** C6, amended. When the condition of the rule at index [i] evaluates to
    false and no error was reported while validating that rule or
    evaluating its condition, [evalCheckRule] returns the status fail with
    the validated message and references, and appends one diagnostic of
    the severity the caller passed. [evalCheckRules], run on a check state
    that expects checks for the object, then returns with the table
    holding, at the address of rule [i] (object, rule type, zero-based
    index), the status fail, the rendered message and the subjects of the
    references. *)
Theorem failed_condition_is_recorded :
  forall typ rules ctx checkState self keyData diagSeverity severity i rule
         validation resultVal diags resultVal',
    checks.ConfigHasChecks checkState (addrs.ConfigCheckableOf self) = true ->
    tfdiags.ToHCL diagSeverity = Returns severity ->
    rules !! i = Some rule ->
    evalCondition typ rule ctx self keyData = Returns (validation, resultVal, diags) ->
    tfdiags.HasErrors diags = false ->
    convert.Convert resultVal cty.Bool = Ok resultVal' ->
    cty.raw resultVal' = cty.RBool false ->
    evalCheckRule typ rule ctx self keyData severity
      = Returns ({| Status := checks.StatusFail;
                    FailureMessage := ErrorMessage validation;
                    Refs := vRefs validation |},
                 tfdiags.Append1 diags (failedDiagnostic typ rule validation severity))
    /\ hcl.Severity (failedDiagnostic typ rule validation severity) = severity
    /\ ErrorMessage validation
         = (evalCheckErrorMessage (configs.ErrorMessage rule) (Ctx validation)).1
    /\ exists ds checkState',
         evalCheckRules typ rules ctx checkState self keyData diagSeverity
           = Returns (ds, checkState')
         /\ checks.statuses checkState' !! (self, typ, i) = Some checks.StatusFail
         /\ checks.failureMsgs checkState' !! (self, typ, i)
              = Some (ErrorMessage validation)
         /\ checks.failureRefs checkState' !! (self, typ, i)
              = Some (map addrs.Subject (vRefs validation)).
Proof.
  intros typ rules ctx checkState self keyData diagSeverity severity i rule
    validation resultVal diags resultVal' Hhas Hsev Hi Hcond Herr Hconv Hraw.
  destruct (Convert_Bool_known _ _ _ Hconv Hraw) as [Hknown Hnull].
  pose proof (StatusForCtyValue_bool _ _ Hraw) as Hstatus.
  assert (Hrule : evalCheckRule typ rule ctx self keyData severity
      = Returns ({| Status := checks.StatusFail;
                    FailureMessage := ErrorMessage validation;
                    Refs := vRefs validation |},
                 tfdiags.Append1 diags (failedDiagnostic typ rule validation severity))).
  { open_rule Hcond. rewrite Herr, Hknown, Hnull, Hconv. simpl.
    unfold cty.Unmark in *. simpl in *. rewrite Hstatus. reflexivity. }
  apply evalCondition_inv in Hcond as (vdiags & hd & Hvalidate & _ & _).
  split; [exact Hrule|]. split; [reflexivity|]. split.
  { apply (validateCheckRule_message _ _ _ _ _ _ _ Hvalidate). }
  pose proof (validateCheckRule_fits _ _ _ _ _ _ Hvalidate) as Hfit.
  destruct (evalCheckRulesFrom_reports typ ctx self keyData severity Hfit rules 0 []
              checkState) as (ds & st' & Hrun & Hrep & _).
  exists ds, st'. split.
  - unfold evalCheckRules. rewrite Hhas, Hsev. simpl.
    case_bool_decide as Hlen; [|exact Hrun].
    apply length_zero_iff_nil in Hlen. subst rules. by rewrite lookup_nil in Hi.
  - destruct (Hrep i rule _ _ Hi Hrule) as (Hs & Hf). simpl in *.
    destruct (Hf eq_refl) as (Hm & Hrefs). done.
Qed.

(** The theorem at the second rule of a check block, under relaxed
    (warning) severity. *)
Lemma failed_condition_is_recorded_witness :
  exists ds checkState',
    evalCheckRules addrs.CheckAssertion [passing; failing] emptyContext healthState
      healthCheck noRepetition tfdiags.Warning = Returns (ds, checkState')
    /\ checks.statuses checkState' !! (healthCheck, addrs.CheckAssertion, 1)
         = Some checks.StatusFail
    /\ checks.failureMsgs checkState' !! (healthCheck, addrs.CheckAssertion, 1)
         = Some "positive number"
    /\ checks.failureRefs checkState' !! (healthCheck, addrs.CheckAssertion, 1)
         = Some [addrs.Subject probeRef].
Proof.
  destruct (failed_condition_is_recorded addrs.CheckAssertion [passing; failing]
              emptyContext healthState healthCheck noRepetition tfdiags.Warning
              hcl.DiagWarning 1 failing
              {| Ctx := []; ErrorMessage := "positive number"; vRefs := [probeRef] |}
              cty.False_ [] cty.False_)
    as (_ & _ & _ & ds & st' & Hrun & Hs & Hm & Hf).
  - reflexivity.
  - reflexivity.
  - reflexivity.
  - reflexivity.
  - reflexivity.
  - reflexivity.
  - reflexivity.
  - exists ds, st'. repeat split; assumption.
Defined.
End ConditionClaims.

(* ===================================================================== *)
(** * Properties of the planned changes *)
(* ===================================================================== *)

Section StackplanClaims.
Import Stackplan.
Import Stackplan.PlannedChangeResourceInstancePlanned.
Context `{Encoders}.

(** Without a change there is nothing to describe. *)
Lemma ChangeDescription_nil (pc : PlannedChangeResourceInstancePlanned.t) :
  ChangeSrc pc = None -> ChangeDescription pc = Ok None.
Proof. intros Hnil. unfold ChangeDescription. by rewrite Hnil. Qed.

(** With a change, a description that exists is a resource instance one. *)
Lemma ChangeDescription_some (pc : PlannedChangeResourceInstancePlanned.t) src ricd :
  ChangeSrc pc = Some src -> ChangeDescription pc = Ok ricd ->
  exists r, ricd = Some (terraform1.ResourceInstancePlanned r).
Proof.
  intros Hsrc. unfold ChangeDescription, encodePathSet. rewrite Hsrc.
  destruct (ChangeTypesForPlanAction _); [|discriminate].
  destruct (cty.Empty _); intros [= <-]; eauto.
Qed.





(** C10. When the encoding of a deferred resource instance change
    succeeds, the event holds exactly one raw record and exactly one
    description, the deferred one, whose reason is [EncodeDeferred] of
    the deferral reason. If the wrapped change has no [ChangeSrc], the
    resource instance summary of the description is empty, whereas the
    plain resource instance change emits no description at all; with a
    [ChangeSrc] the summary is the one [ChangeDescription] builds. *)
Theorem deferred_one_raw_one_description :
  forall (dpc : PlannedChangeDeferredResourceInstancePlanned) out,
    DeferredPlannedChangeProto dpc = Ok out ->
    length (terraform1.PlannedChange.Raw out) = 1
    /\ (exists d,
         terraform1.PlannedChange.Descriptions out = [terraform1.ResourceInstanceDeferred d]
         /\ terraform1.PlannedChange_ResourceInstanceDeferred.Deferred d
              = EncodeDeferred (DeferredReason_ dpc)
         /\ (ChangeSrc (ResourceInstancePlanned dpc) = None ->
             terraform1.PlannedChange_ResourceInstanceDeferred.ResourceInstance d = None)
         /\ (forall src, ChangeSrc (ResourceInstancePlanned dpc) = Some src ->
             exists r,
               terraform1.PlannedChange_ResourceInstanceDeferred.ResourceInstance d = Some r
               /\ ChangeDescription (ResourceInstancePlanned dpc)
                    = Ok (Some (terraform1.ResourceInstancePlanned r))))
    /\ (ChangeSrc (ResourceInstancePlanned dpc) = None ->
        forall out',
          PlannedChangeProto (ResourceInstancePlanned dpc) = Ok out' ->
          terraform1.PlannedChange.Descriptions out' = []).
Proof.
  intros dpc out. unfold DeferredPlannedChangeProto.
  destruct (PlanResourceInstanceChangePlannedProto _) as [change|]; [|discriminate].
  destruct (DeferredReasonToProto _) as [deferredReason ignored].
  destruct (MarshalFrom _) as [raw|]; [|discriminate].
  destruct (ChangeDescription (ResourceInstancePlanned dpc)) as [ricd|] eqn:Hdesc;
    [|discriminate].
  intros [= <-]. simpl. split; [reflexivity|]. split.
  - eexists. split; [reflexivity|]. simpl. split; [reflexivity|]. split.
    + intros Hnil. rewrite (ChangeDescription_nil _ Hnil) in Hdesc.
      by injection Hdesc as <-.
    + intros src Hsrc.
      destruct (ChangeDescription_some _ _ _ Hsrc Hdesc) as (r & ->). eauto.
  - intros Hnil out'. unfold PlannedChangeProto.
    rewrite (ChangeDescription_nil _ Hnil), Hnil.
    destruct (PlanResourceInstanceChangePlannedProto _); [|discriminate].
    destruct (MarshalFrom _); [|discriminate].
    destruct (PriorStateSrc _); by intros [= <-].
Qed.

(** The five named reasons differ pairwise. *)
Lemma reasons_differ :
  DeferredReasonInstanceCountUnknown <> DeferredReasonResourceConfigUnknown
  /\ DeferredReasonInstanceCountUnknown <> DeferredReasonProviderConfigUnknown
  /\ DeferredReasonInstanceCountUnknown <> DeferredReasonAbsentPrereq
  /\ DeferredReasonInstanceCountUnknown <> DeferredReasonDeferredPrereq
  /\ DeferredReasonResourceConfigUnknown <> DeferredReasonProviderConfigUnknown
  /\ DeferredReasonResourceConfigUnknown <> DeferredReasonAbsentPrereq
  /\ DeferredReasonResourceConfigUnknown <> DeferredReasonDeferredPrereq
  /\ DeferredReasonProviderConfigUnknown <> DeferredReasonAbsentPrereq
  /\ DeferredReasonProviderConfigUnknown <> DeferredReasonDeferredPrereq
  /\ DeferredReasonAbsentPrereq <> DeferredReasonDeferredPrereq.
Proof.
  pose proof DeferredReason_distinct as Hd.
  repeat match goal with
         | Hn : NoDup (_ :: _) |- _ => apply NoDup_cons in Hn as [? ?]
         end.
  repeat match goal with
         | Hn : _ ∉ _ :: _ |- _ => apply not_elem_of_cons in Hn as [? ?]
         end.
  repeat split; assumption.
Qed.

(** C7. [EncodeDeferred] is a total function: each of the five named
    reasons maps to its protocol code and every other reason maps to
    INVALID. Encoding a deferred change does not fail because of the
    reason: once the wrapped change, the raw envelope and the description
    of the wrapped change are encoded, [PlannedChangeProto] returns,
    whatever [planfile.DeferredReasonToProto] reported as its error. *)
Theorem EncodeDeferred_total_invalid_fallback :
  (terraform1.Reason (EncodeDeferred DeferredReasonInstanceCountUnknown)
     = terraform1.Deferred_INSTANCE_COUNT_UNKNOWN
   /\ terraform1.Reason (EncodeDeferred DeferredReasonResourceConfigUnknown)
        = terraform1.Deferred_RESOURCE_CONFIG_UNKNOWN
   /\ terraform1.Reason (EncodeDeferred DeferredReasonProviderConfigUnknown)
        = terraform1.Deferred_PROVIDER_CONFIG_UNKNOWN
   /\ terraform1.Reason (EncodeDeferred DeferredReasonAbsentPrereq)
        = terraform1.Deferred_ABSENT_PREREQ
   /\ terraform1.Reason (EncodeDeferred DeferredReasonDeferredPrereq)
        = terraform1.Deferred_DEFERRED_PREREQ)
  /\ (forall reason,
        reason ∉ [DeferredReasonInstanceCountUnknown;
                  DeferredReasonResourceConfigUnknown;
                  DeferredReasonProviderConfigUnknown;
                  DeferredReasonAbsentPrereq;
                  DeferredReasonDeferredPrereq] ->
        terraform1.Reason (EncodeDeferred reason) = terraform1.Deferred_INVALID)
  /\ (forall pc reason change raw ricd,
        PlanResourceInstanceChangePlannedProto pc = Ok change ->
        MarshalFrom (deferredMessage change (DeferredReasonToProto reason).1) = Ok raw ->
        ChangeDescription pc = Ok ricd ->
        DeferredPlannedChangeProto
          {| ResourceInstancePlanned := pc; DeferredReason_ := reason |}
        = Ok {| terraform1.PlannedChange.Raw := [raw];
                terraform1.PlannedChange.Descriptions :=
                  [terraform1.ResourceInstanceDeferred
                     {| terraform1.PlannedChange_ResourceInstanceDeferred.ResourceInstance :=
                          terraform1.GetResourceInstancePlanned ricd;
                        terraform1.PlannedChange_ResourceInstanceDeferred.Deferred :=
                          EncodeDeferred reason |}] |}).
Proof.
  destruct reasons_differ as (H12 & H13 & H14 & H15 & H23 & H24 & H25 & H34 & H35 & H45).
  split; [|split].
  - unfold EncodeDeferred. simpl.
    repeat split; repeat case_decide; congruence.
  - intros reason Hnot. rewrite !not_elem_of_cons in Hnot.
    destruct Hnot as (? & ? & ? & ? & ? & _).
    unfold EncodeDeferred. simpl. repeat case_decide; congruence.
  - intros pc reason change raw ricd Hchange Hraw Hdesc.
    unfold DeferredPlannedChangeProto. simpl. rewrite Hchange.
    destruct (DeferredReasonToProto reason) as [deferredReason ignored].
    simpl in Hraw. rewrite Hraw, Hdesc. reflexivity.
Qed.
End StackplanClaims.

Section StackplanWitnesses.
Import Stackplan.



(** C7 on a reason no encoder knows: the deferred change is still
    encoded, with the INVALID reason. *)
Lemma EncodeDeferred_total_invalid_fallback_witness :
  (wireReasonToProto "not_yet_invented").2 = Some "invalid deferred reason"
  /\ exists raw,
      @DeferredPlannedChangeProto wireReasons wireEncoders
        {| ResourceInstancePlanned := vanished;
           DeferredReason_ := ("not_yet_invented" : @DeferredReason wireReasons) |}
      = Ok {| terraform1.PlannedChange.Raw := [raw];
              terraform1.PlannedChange.Descriptions :=
                [terraform1.ResourceInstanceDeferred
                   {| terraform1.PlannedChange_ResourceInstanceDeferred.ResourceInstance :=
                        None;
                      terraform1.PlannedChange_ResourceInstanceDeferred.Deferred :=
                        {| terraform1.Reason := terraform1.Deferred_INVALID |} |}] |}.
Proof.
  split; [reflexivity|].
  destruct (@EncodeDeferred_total_invalid_fallback wireReasons wireEncoders)
    as (_ & _ & Henc).
  eexists.
  apply (Henc vanished ("not_yet_invented" : @DeferredReason wireReasons)
           (placeholder vanished) _ None);
    reflexivity.
Defined.

(** C10 on the vanished object, deferred because the provider
    configuration is unknown. *)
Lemma deferred_one_raw_one_description_witness :
  exists out d,
    @DeferredPlannedChangeProto wireReasons wireEncoders
      {| ResourceInstancePlanned := vanished;
         DeferredReason_ := ("provider_config_unknown" : @DeferredReason wireReasons) |}
    = Ok out
    /\ length (terraform1.PlannedChange.Raw out) = 1
    /\ terraform1.PlannedChange.Descriptions out = [terraform1.ResourceInstanceDeferred d]
    /\ terraform1.PlannedChange_ResourceInstanceDeferred.ResourceInstance d = None.
Proof.
  pose (dpc := {| ResourceInstancePlanned := vanished;
                  DeferredReason_ :=
                    ("provider_config_unknown" : @DeferredReason wireReasons) |}).
  destruct (@DeferredPlannedChangeProto wireReasons wireEncoders dpc) as [out|err] eqn:Hrun;
    [|discriminate Hrun].
  destruct (@deferred_one_raw_one_description wireReasons wireEncoders dpc out Hrun)
    as (Hlen & (d & Hd & _ & Hnil & _) & _).
  exists out, d. repeat split; [assumption .. | apply Hnil; reflexivity].
Defined.
End StackplanWitnesses.


(* ===================================================================== *)
(** * Further properties of the change slice *)
(* ===================================================================== *)

Section DifferMore.
Import Differ.

(** X1. For an index that is in range of its array, the child holds the
    element at that index and is marked explicit, also when the element
    itself is nil: an explicit null entry is told apart from an absent one
    by the flag alone. *)
Theorem getChild_in_range_element :
  forall (M : Type) (HM : Matcher M) (s : ChangeSlice.t M) (beforeIx afterIx : Z),
    exists c, getChild s beforeIx afterIx = Some c
      /\ (inRange beforeIx (ChangeSlice.Before s) ->
          index (ChangeSlice.Before s) beforeIx = Some (Change.Before c)
          /\ Change.BeforeExplicit c = true)
      /\ (inRange afterIx (ChangeSlice.After s) ->
          index (ChangeSlice.After s) afterIx = Some (Change.After c)
          /\ Change.AfterExplicit c = true).
Proof.
  intros M HM s beforeIx afterIx.
  destruct (getFromGenericSlice_total (ChangeSlice.Before s) beforeIx)
    as (b & Hb & _ & Hbin).
  destruct (getFromGenericSlice_total (ChangeSlice.After s) afterIx)
    as (a & Ha & _ & Hain).
  destruct (getChild_fields s beforeIx afterIx)
    as (b' & a' & u & bs & as_ & eu & ebs & eas & Hb' & Ha' & _ & _ & _ & Hc).
  rewrite Hb in Hb'. rewrite Ha in Ha'. injection Hb' as <-. injection Ha' as <-.
  eexists. split; [exact Hc|]. simpl. split.
  - intros Hr. split; [by apply Hbin|]. by apply bool_decide_eq_true_2.
  - intros Hr. split; [by apply Hain|]. by apply bool_decide_eq_true_2.
Qed.

(** X2. The two sides of a child never mix: its before value, flag and
    sensitivity depend on the before-index only, and its after value, flag,
    sensitivity and unknown marker on the after-index only. *)
Theorem getChild_sides_independent :
  forall (M : Type) (HM : Matcher M) (s : ChangeSlice.t M)
         (beforeIx afterIx beforeIx' afterIx' : Z) (c c' : Change.t M),
    getChild s beforeIx afterIx = Some c ->
    getChild s beforeIx' afterIx' = Some c' ->
    (beforeIx = beforeIx' ->
       Change.Before c = Change.Before c'
       /\ Change.BeforeExplicit c = Change.BeforeExplicit c'
       /\ Change.BeforeSensitive c = Change.BeforeSensitive c')
    /\ (afterIx = afterIx' ->
       Change.After c = Change.After c'
       /\ Change.AfterExplicit c = Change.AfterExplicit c'
       /\ Change.AfterSensitive c = Change.AfterSensitive c'
       /\ Change.Unknown c = Change.Unknown c').
Proof.
  intros M HM s beforeIx afterIx beforeIx' afterIx' c c' Hc Hc'.
  destruct (getChild_fields s beforeIx afterIx)
    as (b & a & u & bs & as_ & eu & ebs & eas & Hb & Ha & Hu & Hbs & Has & Hf).
  destruct (getChild_fields s beforeIx' afterIx')
    as (b' & a' & u' & bs' & as_' & eu' & ebs' & eas' & Hb' & Ha' & Hu' & Hbs' & Has' & Hf').
  rewrite Hc in Hf. rewrite Hc' in Hf'. injection Hf as ->. injection Hf' as ->. simpl.
  split.
  - intros <-. rewrite Hb in Hb'. rewrite Hbs in Hbs'.
    injection Hb' as <-. injection Hbs' as <- _. done.
  - intros <-. rewrite Ha in Ha'. rewrite Has in Has'. rewrite Hu in Hu'.
    injection Ha' as <-. injection Has' as <- _. injection Hu' as <- _. done.
Qed.

(** The theorem on the two-element list, at the index pairs (0, 1) and
    (0, 0). *)
Lemma getChild_sides_independent_witness :
  exists c c' : Change.t (list Z),
    getChild twoElements 0 1 = Some c /\ getChild twoElements 0 0 = Some c'
    /\ Change.Before c = Change.Before c'
    /\ Change.BeforeSensitive c = Change.BeforeSensitive c'.
Proof.
  destruct (getChild twoElements 0 1) as [c|] eqn:Hc; [|discriminate Hc].
  destruct (getChild twoElements 0 0) as [c'|] eqn:Hc'; [|discriminate Hc'].
  destruct (getChild_sides_independent (list Z) path_matcher twoElements 0 1 0 0 c c' Hc Hc')
    as [Hbefore _].
  destruct (Hbefore eq_refl) as (H1 & _ & H3).
  exists c, c'. repeat split; assumption.
Defined.

(** X3. Decomposing a change whose before and after values are arrays and
    asking for the child at positions that exist returns the elements at
    those positions, both explicit, with the matchers of the change moved to
    the before position. *)
Theorem asSlice_getChild_elements :
  forall (M : Type) (HM : Matcher M) (change : Change.t M)
         (before after : list generic) (i j : nat) (x y : generic),
    Change.Before change = GSlice (Some before) ->
    Change.After change = GSlice (Some after) ->
    before !! i = Some x ->
    after !! j = Some y ->
    exists c, getChild (asSlice change) (Z.of_nat i) (Z.of_nat j) = Some c
      /\ Change.Before c = x /\ Change.After c = y
      /\ Change.BeforeExplicit c = true /\ Change.AfterExplicit c = true
      /\ Change.ReplacePaths c
           = GetChildWithIndex (Change.ReplacePaths change) (Z.of_nat i)
      /\ Change.RelevantAttributes c
           = GetChildWithIndex (Change.RelevantAttributes change) (Z.of_nat i).
Proof.
  intros M HM change before after i j x y HB HA Hi Hj.
  assert (Hri : inRange (Z.of_nat i) (ChangeSlice.Before (asSlice change))).
  { unfold inRange, asSlice. simpl. rewrite HB. simpl.
    apply lookup_lt_Some in Hi. lia. }
  assert (Hrj : inRange (Z.of_nat j) (ChangeSlice.After (asSlice change))).
  { unfold inRange, asSlice. simpl. rewrite HA. simpl.
    apply lookup_lt_Some in Hj. lia. }
  destruct (getFromGenericSlice_total (ChangeSlice.Before (asSlice change)) (Z.of_nat i))
    as (b & Hb & _ & Hbin).
  destruct (getFromGenericSlice_total (ChangeSlice.After (asSlice change)) (Z.of_nat j))
    as (a & Ha & _ & Hain).
  destruct (getChild_fields (asSlice change) (Z.of_nat i) (Z.of_nat j))
    as (b' & a' & u & bs & as_ & eu & ebs & eas & Hb' & Ha' & _ & _ & _ & Hc).
  rewrite Hb in Hb'. rewrite Ha in Ha'. injection Hb' as <-. injection Ha' as <-.
  specialize (Hbin Hri). specialize (Hain Hrj).
  unfold index, asSlice in Hbin, Hain. simpl in Hbin, Hain.
  rewrite HB in Hbin. rewrite HA in Hain. simpl in Hbin, Hain.
  destruct (Z.ltb_spec (Z.of_nat i) 0); [lia|].
  destruct (Z.ltb_spec (Z.of_nat j) 0); [lia|].
  rewrite Nat2Z.id, Hi in Hbin. rewrite Nat2Z.id, Hj in Hain.
  injection Hbin as <-. injection Hain as <-.
  eexists. split; [exact Hc|]. simpl.
  rewrite mostRelevantIx_spec.
  rewrite !bool_decide_eq_true_2 by done.
  rewrite decide_True by done. done.
Qed.

(** The theorem on a list that lost its first element: the old second
    element is paired with the new first one. *)
Lemma asSlice_getChild_elements_witness :
  exists c : Change.t (list Z),
    getChild
      (asSlice {| Change.BeforeExplicit := true; Change.AfterExplicit := true;
                  Change.Before := GSlice (Some [GString "a"; GString "b"]);
                  Change.After := GSlice (Some [GString "b"]);
                  Change.Unknown := GBool false;
                  Change.BeforeSensitive := GBool false;
                  Change.AfterSensitive := GBool false;
                  Change.ReplacePaths := [];
                  Change.RelevantAttributes := [] |}) 1 0 = Some c
    /\ Change.Before c = GString "b" /\ Change.After c = GString "b"
    /\ Change.ReplacePaths c = [1%Z].
Proof.
  destruct (asSlice_getChild_elements (list Z) path_matcher
              {| Change.BeforeExplicit := true; Change.AfterExplicit := true;
                 Change.Before := GSlice (Some [GString "a"; GString "b"]);
                 Change.After := GSlice (Some [GString "b"]);
                 Change.Unknown := GBool false;
                 Change.BeforeSensitive := GBool false;
                 Change.AfterSensitive := GBool false;
                 Change.ReplacePaths := [];
                 Change.RelevantAttributes := [] |}
              [GString "a"; GString "b"] [GString "b"] 1 0 (GString "b") (GString "b")
              eq_refl eq_refl eq_refl eq_refl)
    as (c & Hc & Hb & Ha & _ & _ & Hrp & _).
  exists c. repeat split; assumption.
Defined.

(** X4. A marker that is not an array does not reach the children: when the
    unknown (or a sensitivity) value of a change is a scalar, such as a plain
    true for a wholly unknown or wholly sensitive list, every child gets nil
    for it, whatever the indices. *)
Theorem asSlice_scalar_markers_dropped :
  forall (M : Type) (HM : Matcher M) (change : Change.t M) (beforeIx afterIx : Z),
    exists c, getChild (asSlice change) beforeIx afterIx = Some c
      /\ ((forall elems, Change.Unknown change <> GSlice elems) ->
          Change.Unknown c = GNil)
      /\ ((forall elems, Change.BeforeSensitive change <> GSlice elems) ->
          Change.BeforeSensitive c = GNil)
      /\ ((forall elems, Change.AfterSensitive change <> GSlice elems) ->
          Change.AfterSensitive c = GNil).
Proof.
  intros M HM change beforeIx afterIx.
  assert (Hnon : forall g : generic, (forall elems, g <> GSlice elems) ->
                   genericToSlice g = None).
  { intros g Hg. destruct g; try reflexivity. exfalso. eapply Hg. reflexivity. }
  destruct (getChild_fields (asSlice change) beforeIx afterIx)
    as (b & a & u & bs & as_ & eu & ebs & eas & _ & _ & Hu & Hbs & Has & Hc).
  eexists. split; [exact Hc|]. simpl.
  unfold asSlice in Hu, Hbs, Has. simpl in Hu, Hbs, Has.
  repeat split; intros Hs; rewrite (Hnon _ Hs) in *; simpl in *; congruence.
Qed.

End DifferMore.


(* ===================================================================== *)
(** * Further properties of the check evaluator *)
(* ===================================================================== *)

Section ConditionMore.
Import Conditions.

(** Conversion keeps the marks of a value. *)
Lemma Convert_marks (v v' : cty.Value) (want : cty.Type_) :
  convert.Convert v want = Ok v' -> cty.marks v' = cty.marks v.
Proof.
  unfold convert.Convert. case_decide; [by intros [= <-]|].
  destruct (negb _); [discriminate|].
  destruct (cty.raw v) eqn:Hraw; try (by intros [= <-]);
    destruct (convert.primitive _ want) as [[r|e]|]; try discriminate;
    by intros [= <-].
Qed.

(** A known, non-null value that converts to [Bool] becomes a boolean. *)
Lemma Convert_Bool_raw (v v' : cty.Value) :
  cty.IsKnown v = true -> cty.IsNull v = false ->
  convert.Convert v cty.Bool = Ok v' -> exists b, cty.raw v' = cty.RBool b.
Proof.
  unfold cty.IsKnown, cty.IsNull, convert.Convert, cty.TypeOf.
  destruct v as [r m]. simpl. intros Hk Hn.
  destruct r as [ty|ty|b|s|n|name]; try discriminate; simpl;
    repeat case_decide; try discriminate; intros [= <-]; simpl; eauto.
Qed.

(** The five ways [evalCheckRule] returns. *)
Lemma evalCheckRule_cases typ rule ctx self keyData severity result diags :
  evalCheckRule typ rule ctx self keyData severity = Returns (result, diags) ->
  exists validation resultVal pre,
    evalCondition typ rule ctx self keyData = Returns (validation, resultVal, pre)
    /\ ((tfdiags.HasErrors pre = true
         /\ result = {| Status := checks.StatusError; FailureMessage := ""; Refs := [] |}
         /\ diags = pre)
        \/ (tfdiags.HasErrors pre = false /\ cty.IsKnown resultVal = false
            /\ result = {| Status := checks.StatusUnknown; FailureMessage := ""; Refs := [] |}
            /\ tfdiags.HasErrors diags = false)
        \/ (tfdiags.HasErrors pre = false /\ cty.IsKnown resultVal = true
            /\ result = {| Status := checks.StatusError; FailureMessage := ""; Refs := [] |}
            /\ exists d, diags = tfdiags.Append1 pre d /\ hcl.Severity d = hcl.DiagError)
        \/ (tfdiags.HasErrors pre = false
            /\ (exists v', convert.Convert resultVal cty.Bool = Ok v'
                           /\ cty.raw v' = cty.RBool true)
            /\ result = {| Status := checks.StatusPass; FailureMessage := ""; Refs := [] |}
            /\ diags = pre)
        \/ (tfdiags.HasErrors pre = false
            /\ (exists v', convert.Convert resultVal cty.Bool = Ok v'
                           /\ cty.raw v' = cty.RBool false)
            /\ result = {| Status := checks.StatusFail;
                           FailureMessage := ErrorMessage validation;
                           Refs := vRefs validation |}
            /\ diags = tfdiags.Append1 pre (failedDiagnostic typ rule validation severity))).
Proof.
  unfold evalCheckRule, evalCondition.
  destruct (validateCheckRule typ rule ctx self keyData) as [[validation vdiags]|];
    [|discriminate].
  destruct (Value (configs.Condition rule) (Ctx validation)) as [resultVal hd].
  intros Hrun. exists validation, resultVal, (tfdiags.AppendHCL vdiags hd).
  split; [reflexivity|].
  destruct (tfdiags.HasErrors (tfdiags.AppendHCL vdiags hd)) eqn:Herr.
  { injection Hrun as <- <-. left. done. }
  right.
  destruct (cty.IsKnown resultVal) eqn:Hknown; simpl in Hrun.
  2:{ injection Hrun as <- <-. left. repeat split.
      case_bool_decide; [|done]. rewrite HasErrors_Append1, Herr. reflexivity. }
  right.
  destruct (cty.IsNull resultVal) eqn:Hnull.
  { injection Hrun as <- <-. left. repeat split. eexists. split; reflexivity. }
  destruct (convert.Convert resultVal cty.Bool) as [v'|err] eqn:Hconv.
  2:{ injection Hrun as <- <-. left. repeat split. eexists. split; reflexivity. }
  right.
  destruct (Convert_Bool_raw _ _ Hknown Hnull Hconv) as [b Hraw].
  pose proof (StatusForCtyValue_bool _ _ Hraw) as Hstatus.
  unfold cty.Unmark in *. simpl in *. rewrite Hstatus in Hrun.
  destruct b; simpl in Hrun; injection Hrun as <- <-.
  - left. repeat split. eauto.
  - right. repeat split. eauto.
Qed.

Lemma validateCheckRule_panics typ rule ctx self keyData :
  selfFits typ self = false ->
  exists msg, validateCheckRule typ rule ctx self keyData = Panics msg.
Proof.
  intros Hfit. unfold validateCheckRule.
  destruct (ReferencesInExpr (configs.Condition rule)) as [refs d1].
  destruct (ReferencesInExpr (configs.ErrorMessage rule)) as [moreRefs d2].
  destruct typ, self; try discriminate Hfit; eauto.
Qed.

Lemma validateCheckRule_refs typ rule ctx self keyData validation diags :
  validateCheckRule typ rule ctx self keyData = Returns (validation, diags) ->
  vRefs validation
  = (ReferencesInExpr (configs.Condition rule)).1
    ++ (ReferencesInExpr (configs.ErrorMessage rule)).1.
Proof.
  unfold validateCheckRule.
  destruct (ReferencesInExpr (configs.Condition rule)) as [refs d1].
  destruct (ReferencesInExpr (configs.ErrorMessage rule)) as [moreRefs d2].
  set (references := match typ with
                     | addrs.ResourcePostcondition => _
                     | addrs.CheckAssertion => _
                     | _ => _ end).
  destruct references as [[selfRef sourceRef]|msg]; [|discriminate].
  destruct (lang.EvalContext _ _) as [hclCtx d3].
  destruct (evalCheckErrorMessage (configs.ErrorMessage rule) hclCtx) as [m d4].
  intros [= <- <-]. reflexivity.
Qed.

Lemma evalCheckRule_fits typ rule ctx self keyData severity r :
  evalCheckRule typ rule ctx self keyData severity = Returns r ->
  selfFits typ self = true.
Proof.
  unfold evalCheckRule.
  destruct (validateCheckRule typ rule ctx self keyData) as [x|] eqn:Hv; [|discriminate].
  intros _. eapply validateCheckRule_fits. exact Hv.
Qed.

(** Errors among the diagnostics of a rule, by its status. *)
Lemma evalCheckRule_errors_by_status :
  forall typ rule ctx self keyData severity result diags,
    evalCheckRule typ rule ctx self keyData severity = Returns (result, diags) ->
    (tfdiags.HasErrors diags = true
     <-> Status result = checks.StatusError
         \/ (Status result = checks.StatusFail /\ severity <> hcl.DiagWarning)).
Proof.
  intros typ rule ctx self keyData severity result diags Hrun.
  destruct (evalCheckRule_cases _ _ _ _ _ _ _ _ Hrun)
    as (validation & v & pre & _ &
        [(Herr & -> & ->) | [(Herr & _ & -> & Hd) | [(Herr & _ & -> & d & -> & Hsev)
        | [(Herr & _ & -> & ->) | (Herr & _ & -> & ->)]]]]); simpl.
  - split; [by left|done].
  - rewrite Hd. split; [done|]. intros [|[]]; discriminate.
  - rewrite HasErrors_Append1, Herr. unfold tfdiags.isError. simpl. rewrite Hsev.
    split; [by left|done].
  - rewrite Herr. split; [done|]. intros [|[]]; discriminate.
  - rewrite HasErrors_Append1, Herr. unfold tfdiags.isError. simpl.
    destruct severity; simpl; split; try done; try (intros _; right; done);
      intros [|[]]; done.
Qed.

(** X5. The status of a rule and its diagnostics agree: the diagnostics
    hold an error exactly when the status is error, or when the status is
    fail and the caller did not ask for warnings. A passing or unknown rule
    never comes with an error. *)
Theorem evalCheckRule_errors_iff_status :
  forall typ rule ctx self keyData severity result diags,
    evalCheckRule typ rule ctx self keyData severity = Returns (result, diags) ->
    (tfdiags.HasErrors diags = true
     <-> Status result = checks.StatusError
         \/ (Status result = checks.StatusFail /\ severity <> hcl.DiagWarning)).
Proof. exact evalCheckRule_errors_by_status. Qed.

(** The theorem on the failing rule, once at error and once at warning
    severity. *)
Lemma evalCheckRule_errors_iff_status_witness :
  (exists result diags,
     evalCheckRule addrs.CheckAssertion failing emptyContext healthCheck noRepetition
       hcl.DiagError = Returns (result, diags)
     /\ (tfdiags.HasErrors diags = true
         <-> Status result = checks.StatusError
             \/ (Status result = checks.StatusFail /\ hcl.DiagError <> hcl.DiagWarning)))
  /\ (exists result diags,
        evalCheckRule addrs.CheckAssertion failing emptyContext healthCheck noRepetition
          hcl.DiagWarning = Returns (result, diags)
        /\ (tfdiags.HasErrors diags = true
            <-> Status result = checks.StatusError
                \/ (Status result = checks.StatusFail /\ hcl.DiagWarning <> hcl.DiagWarning))).
Proof.
  split.
  - destruct (evalCheckRule addrs.CheckAssertion failing emptyContext healthCheck
                noRepetition hcl.DiagError) as [[result diags]|] eqn:Hrun;
      [|discriminate Hrun].
    exists result, diags. split; [reflexivity|].
    exact (evalCheckRule_errors_iff_status _ _ _ _ _ _ _ _ Hrun).
  - destruct (evalCheckRule addrs.CheckAssertion failing emptyContext healthCheck
                noRepetition hcl.DiagWarning) as [[result diags]|] eqn:Hrun;
      [|discriminate Hrun].
    exists result, diags. split; [reflexivity|].
    exact (evalCheckRule_errors_iff_status _ _ _ _ _ _ _ _ Hrun).
Defined.

(** X6. Only a failed rule carries a message and references: for every
    other status both are empty. A failed rule carries the rendered error
    message and the references found in its condition followed by those
    found in its error message. *)
Theorem evalCheckRule_message_and_refs :
  forall typ rule ctx self keyData severity result diags,
    evalCheckRule typ rule ctx self keyData severity = Returns (result, diags) ->
    (Status result <> checks.StatusFail ->
       FailureMessage result = "" /\ Refs result = [])
    /\ (Status result = checks.StatusFail ->
        Refs result
        = (ReferencesInExpr (configs.Condition rule)).1
          ++ (ReferencesInExpr (configs.ErrorMessage rule)).1
        /\ exists validation vdiags,
             validateCheckRule typ rule ctx self keyData = Returns (validation, vdiags)
             /\ FailureMessage result
                  = (evalCheckErrorMessage (configs.ErrorMessage rule) (Ctx validation)).1).
Proof.
  intros typ rule ctx self keyData severity result diags Hrun.
  destruct (evalCheckRule_cases _ _ _ _ _ _ _ _ Hrun)
    as (validation & v & pre & Hcond &
        [(_ & -> & _) | [(_ & _ & -> & _) | [(_ & _ & -> & _)
        | [(_ & _ & -> & _) | (_ & _ & -> & _)]]]]); simpl; try (split; done).
  apply evalCondition_inv in Hcond as (vdiags & hd & Hvalidate & _ & _).
  split; [done|]. intros _. split.
  - eapply validateCheckRule_refs. exact Hvalidate.
  - exists validation, vdiags. split; [exact Hvalidate|].
    apply (validateCheckRule_message _ _ _ _ _ _ _ Hvalidate).
Qed.

(** The theorem on the failing rule. *)
Lemma evalCheckRule_message_and_refs_witness :
  exists result diags,
    evalCheckRule addrs.CheckAssertion failing emptyContext healthCheck noRepetition
      hcl.DiagError = Returns (result, diags)
    /\ Refs result = [probeRef].
Proof.
  destruct (evalCheckRule addrs.CheckAssertion failing emptyContext healthCheck
              noRepetition hcl.DiagError) as [[result diags]|] eqn:Hrun;
    [|discriminate Hrun].
  destruct (evalCheckRule_message_and_refs _ _ _ _ _ _ _ _ Hrun) as [_ Hfail].
  exists result, diags. split; [reflexivity|].
  apply Hfail. vm_compute in Hrun. by injection Hrun as <- _.
Defined.

(** The message of a value marked sensitive is never rendered. *)
Lemma evalCheckErrorMessage_sensitive (expr : Expression) (hclCtx : HclEvalContext) m md :
  Value expr hclCtx = (m, md) ->
  marks.Sensitive ∈ cty.marks m ->
  (evalCheckErrorMessage expr hclCtx).1 = "".
Proof.
  intros Hv Hs. unfold evalCheckErrorMessage. rewrite Hv.
  destruct (hcl.HasErrors md); [done|].
  destruct (convert.Convert m cty.String) as [m'|err] eqn:Hc; [|done].
  apply Convert_marks in Hc.
  destruct (cty.IsKnown m'); [|done]. destruct (cty.IsNull m'); [done|]. simpl.
  rewrite Hc. by rewrite bool_decide_eq_true_2.
Qed.

(** X7. An error message that refers to a sensitive value never leaves the
    evaluator: whatever the message evaluates to, the failure message of the
    result is empty, and the diagnostic of a failed condition shows the
    generic text instead. *)
Theorem sensitive_message_never_rendered :
  forall typ rule ctx self keyData severity validation vdiags m md result diags,
    validateCheckRule typ rule ctx self keyData = Returns (validation, vdiags) ->
    Value (configs.ErrorMessage rule) (Ctx validation) = (m, md) ->
    marks.Sensitive ∈ cty.marks m ->
    evalCheckRule typ rule ctx self keyData severity = Returns (result, diags) ->
    FailureMessage result = ""
    /\ (Status result = checks.StatusFail ->
        exists pre d,
          diags = tfdiags.Append1 pre d
          /\ hcl.Detail d = "This check failed, but has an invalid error message as described in the other accompanying messages.").
Proof.
  intros typ rule ctx self keyData severity validation vdiags m md result diags
    Hvalidate Hm Hs Hrun.
  pose proof (evalCheckErrorMessage_sensitive _ _ _ _ Hm Hs) as Hempty.
  destruct (validateCheckRule_message _ _ _ _ _ _ _ Hvalidate) as (Hmsg & _).
  rewrite Hempty in Hmsg.
  destruct (evalCheckRule_cases _ _ _ _ _ _ _ _ Hrun)
    as (validation' & v & pre & Hcond &
        [(_ & -> & _) | [(_ & _ & -> & _) | [(_ & _ & -> & _)
        | [(_ & _ & -> & _) | (_ & _ & -> & ->)]]]]); simpl; try (split; done).
  apply evalCondition_inv in Hcond as (vdiags' & hd & Hvalidate' & _ & _).
  rewrite Hvalidate in Hvalidate'. injection Hvalidate' as <- <-.
  split; [exact Hmsg|]. intros _. do 2 eexists. split; [reflexivity|].
  unfold failedDiagnostic. simpl. by rewrite Hmsg.
Qed.

(** The theorem on a failing rule whose message is a sensitive string. *)
Lemma sensitive_message_never_rendered_witness :
  exists result diags,
    evalCheckRule addrs.CheckAssertion
      {| configs.Condition := constant cty.False_ "main.tf:3,17-22";
         configs.ErrorMessage :=
           constant (cty.WithMarks (cty.StringVal "the password is hunter2")
                       {[ marks.Sensitive ]}) "main.tf:4,21-40" |}
      emptyContext healthCheck noRepetition hcl.DiagError = Returns (result, diags)
    /\ Status result = checks.StatusFail
    /\ FailureMessage result = "".
Proof.
  pose (rule := {| configs.Condition := constant cty.False_ "main.tf:3,17-22";
                   configs.ErrorMessage :=
                     constant (cty.WithMarks (cty.StringVal "the password is hunter2")
                                 {[ marks.Sensitive ]}) "main.tf:4,21-40" |}).
  destruct (evalCheckRule addrs.CheckAssertion rule emptyContext healthCheck
              noRepetition hcl.DiagError) as [[result diags]|] eqn:Hrun;
    [|discriminate Hrun].
  destruct (validateCheckRule addrs.CheckAssertion rule emptyContext healthCheck
              noRepetition) as [[validation vdiags]|] eqn:Hvalidate;
    [|discriminate Hvalidate].
  destruct (sensitive_message_never_rendered addrs.CheckAssertion rule emptyContext
              healthCheck noRepetition hcl.DiagError validation vdiags
              (cty.WithMarks (cty.StringVal "the password is hunter2") {[ marks.Sensitive ]})
              [] result diags Hvalidate eq_refl) as [Hmsg _].
  - simpl. set_solver.
  - exact Hrun.
  - exists result, diags. split; [exact Hrun|]. split; [|exact Hmsg].
    vm_compute in Hrun. by injection Hrun as <- _.
Defined.

(** X8. The severity the caller passes never changes the result of a rule,
    its status, message and references; it changes the diagnostics of a
    failed condition only, and then only the severity of the last one. *)
Theorem evalCheckRule_severity_only_in_diagnostic :
  forall typ rule ctx self keyData severity severity' result diags result' diags',
    evalCheckRule typ rule ctx self keyData severity = Returns (result, diags) ->
    evalCheckRule typ rule ctx self keyData severity' = Returns (result', diags') ->
    result = result'
    /\ (Status result <> checks.StatusFail -> diags = diags')
    /\ (Status result = checks.StatusFail ->
        exists pre d d',
          diags = tfdiags.Append1 pre d /\ diags' = tfdiags.Append1 pre d'
          /\ hcl.Severity d = severity /\ hcl.Severity d' = severity'
          /\ hcl.Summary d = hcl.Summary d' /\ hcl.Detail d = hcl.Detail d').
Proof.
  intros typ rule ctx self keyData severity severity' result diags result' diags'.
  unfold evalCheckRule.
  destruct (validateCheckRule typ rule ctx self keyData) as [[validation vdiags]|];
    [|discriminate].
  destruct (Value (configs.Condition rule) (Ctx validation)) as [resultVal hd].
  destruct (tfdiags.HasErrors _); [intros [= <- <-] [= <- <-]; done|].
  destruct (cty.IsKnown resultVal); simpl; [|intros [= <- <-] [= <- <-]; done].
  destruct (cty.IsNull resultVal); [intros [= <- <-] [= <- <-]; done|].
  destruct (convert.Convert resultVal cty.Bool) as [v'|err];
    [|intros [= <- <-] [= <- <-]; done].
  destruct (cty.Unmark v') as [v'' ms].
  case_bool_decide as Hfail; simpl.
  - intros [= <- <-] [= <- <-]. simpl. split; [done|]. split; [done|].
    intros _. do 3 eexists. repeat split.
  - intros [= <- <-] [= <- <-]. simpl. split; [done|]. split; [done|]. done.
Qed.

(** The theorem on the failing rule, at error and at warning severity. *)
Lemma evalCheckRule_severity_only_in_diagnostic_witness :
  exists result diags diags',
    evalCheckRule addrs.CheckAssertion failing emptyContext healthCheck noRepetition
      hcl.DiagError = Returns (result, diags)
    /\ evalCheckRule addrs.CheckAssertion failing emptyContext healthCheck noRepetition
         hcl.DiagWarning = Returns (result, diags').
Proof.
  destruct (evalCheckRule addrs.CheckAssertion failing emptyContext healthCheck
              noRepetition hcl.DiagError) as [[result diags]|] eqn:Hrun;
    [|discriminate Hrun].
  destruct (evalCheckRule addrs.CheckAssertion failing emptyContext healthCheck
              noRepetition hcl.DiagWarning) as [[result' diags']|] eqn:Hrun';
    [|discriminate Hrun'].
  destruct (evalCheckRule_severity_only_in_diagnostic _ _ _ _ _ _ _ _ _ _ _ Hrun Hrun')
    as [<- _].
  exists result, diags, diags'. split; reflexivity.
Defined.

(** X9. Only a resource postcondition sees the object as [self] and only a
    check block assertion sees it as the source of scoped resources: for
    every other rule type the evaluation of a rule does not depend on the
    object it is evaluated for. *)
Theorem evalCheckRule_ignores_self :
  forall typ rule ctx self self' keyData severity,
    typ <> addrs.ResourcePostcondition ->
    typ <> addrs.CheckAssertion ->
    evalCheckRule typ rule ctx self keyData severity
    = evalCheckRule typ rule ctx self' keyData severity.
Proof.
  intros typ rule ctx self self' keyData severity Hpost Hassert.
  unfold evalCheckRule, validateCheckRule.
  destruct typ; try done.
Qed.

(** The theorem on a precondition, evaluated for a check block and for a
    resource instance. *)
Lemma evalCheckRule_ignores_self_witness :
  evalCheckRule addrs.ResourcePrecondition failing emptyContext healthCheck
    noRepetition hcl.DiagError
  = evalCheckRule addrs.ResourcePrecondition failing emptyContext
      (addrs.AbsResourceInstance []
         {| addrs.Resource := "aws_instance.web"; addrs.Key := addrs.IntKey 0 |})
      noRepetition hcl.DiagError.
Proof.
  apply evalCheckRule_ignores_self; discriminate.
Defined.

(** The loop writes at the addresses of its own rules only, and never
    changes the set of configuration objects. *)
Lemma evalCheckRulesFrom_frame typ ctx self keyData severity :
  forall rules k diags st ds st',
    evalCheckRulesFrom typ k rules ctx self keyData severity diags st = Returns (ds, st') ->
    checks.configs st' = checks.configs st
    /\ forall key,
        (forall j, j < length rules -> key <> (self, typ, k + j)) ->
        checks.statuses st' !! key = checks.statuses st !! key
        /\ checks.failureMsgs st' !! key = checks.failureMsgs st !! key
        /\ checks.failureRefs st' !! key = checks.failureRefs st !! key.
Proof.
  induction rules as [|rule rest IH]; intros k diags st ds st'.
  - simpl. intros [= <- <-]. done.
  - simpl.
    destruct (evalCheckRule typ rule ctx self keyData severity) as [[result rd]|];
      [|discriminate].
    set (st1 := if bool_decide (Status result = checks.StatusFail) then _ else _).
    intros Hrun. destruct (IH _ _ _ _ _ Hrun) as (Hcfg & Hkeep).
    split.
    + rewrite Hcfg. subst st1. by case_bool_decide.
    + intros key Hkey.
      destruct (Hkeep key) as (Hs & Hm & Hf).
      { intros j Hj. replace (S k + j) with (k + S j) by lia. apply Hkey. lia. }
      rewrite Hs, Hm, Hf.
      assert ((self, typ, k) <> key) as Hne.
      { specialize (Hkey 0 (Nat.lt_0_succ _)). rewrite Nat.add_0_r in Hkey. done. }
      subst st1. case_bool_decide; simpl; rewrite ?lookup_insert_ne by done; done.
Qed.

(** The diagnostics of the loop hold an error exactly when the ones it
    started with do or those of one of its rules do. *)
Lemma evalCheckRulesFrom_errors typ ctx self keyData severity :
  forall rules k diags st ds st',
    evalCheckRulesFrom typ k rules ctx self keyData severity diags st = Returns (ds, st') ->
    (tfdiags.HasErrors ds = true
     <-> tfdiags.HasErrors diags = true
         \/ exists j rule result rd,
              rules !! j = Some rule
              /\ evalCheckRule typ rule ctx self keyData severity = Returns (result, rd)
              /\ tfdiags.HasErrors rd = true).
Proof.
  induction rules as [|rule rest IH]; intros k diags st ds st'.
  - simpl. intros [= <- <-]. split; [by left|].
    intros [|(j & r & ? & ? & Hj & _)]; [done|]. by rewrite lookup_nil in Hj.
  - simpl.
    destruct (evalCheckRule typ rule ctx self keyData severity) as [[result rd]|] eqn:Hr;
      [|discriminate].
    intros Hrun. rewrite (IH _ _ _ _ _ Hrun).
    unfold tfdiags.Append. rewrite HasErrors_app, orb_true_iff. split.
    + intros [[Hd | Hrd] | (j & r & res & rd' & Hj & Hrj & He)].
      * by left.
      * right. exists 0, rule, result, rd. done.
      * right. exists (S j), r, res, rd'. done.
    + intros [Hd | (j & r & res & rd' & Hj & Hrj & He)].
      * left. by left.
      * destruct j as [|j].
        -- injection Hj as <-. rewrite Hr in Hrj. injection Hrj as <- <-.
           left. by right.
        -- right. exists j, r, res, rd'. done.
Qed.

(** The loop panics on a rule type that does not fit the object. *)
Lemma evalCheckRulesFrom_panics typ ctx self keyData severity rule rest k diags st :
  selfFits typ self = false ->
  exists msg,
    evalCheckRulesFrom typ k (rule :: rest) ctx self keyData severity diags st = Panics msg.
Proof.
  intros Hfit. simpl.
  destruct (validateCheckRule_panics typ rule ctx self keyData Hfit) as [msg Hp].
  unfold evalCheckRule. rewrite Hp. eauto.
Qed.

(** X10. [evalCheckRules] panics whenever there are rules to evaluate and
    either the check state knows of no checks for the object, or the
    severity is neither error nor warning, or the rule type does not fit the
    object (a postcondition of something that is no resource instance, an
    assertion of something that is no check block). *)
Theorem evalCheckRules_panics_when :
  forall typ rules ctx checkState self keyData diagSeverity,
    rules <> [] ->
    (checks.ConfigHasChecks checkState (addrs.ConfigCheckableOf self) = false
     \/ diagSeverity = tfdiags.Unrecognized
     \/ selfFits typ self = false) ->
    exists msg,
      evalCheckRules typ rules ctx checkState self keyData diagSeverity = Panics msg.
Proof.
  intros typ rules ctx checkState self keyData diagSeverity Hrules Hwhy.
  destruct rules as [|rule rest]; [done|].
  unfold evalCheckRules.
  destruct (checks.ConfigHasChecks checkState (addrs.ConfigCheckableOf self)); simpl;
    [|eauto].
  destruct diagSeverity; simpl; [| |eauto].
  - destruct Hwhy as [|[|Hfit]]; try discriminate.
    apply (evalCheckRulesFrom_panics typ ctx self keyData hcl.DiagError rule rest 0 []
             checkState Hfit).
  - destruct Hwhy as [|[|Hfit]]; try discriminate.
    apply (evalCheckRulesFrom_panics typ ctx self keyData hcl.DiagWarning rule rest 0 []
             checkState Hfit).
Qed.

(** The theorem on a postcondition evaluated for a check block. *)
Lemma evalCheckRules_panics_when_witness :
  exists msg,
    evalCheckRules addrs.ResourcePostcondition [passing] emptyContext healthState
      healthCheck noRepetition tfdiags.Error = Panics msg.
Proof.
  apply evalCheckRules_panics_when; [discriminate|].
  right. right. reflexivity.
Defined.

(** X11. [evalCheckRules] writes into the table at the addresses of the
    rules it was given and nowhere else: the entries of other objects, rule
    types and indices, and the set of configuration objects, are left as
    they were. When the check state expects checks for the object, every
    rule gets a status. *)
Theorem evalCheckRules_writes_own_rules_only :
  forall typ rules ctx checkState self keyData diagSeverity ds checkState',
    evalCheckRules typ rules ctx checkState self keyData diagSeverity
      = Returns (ds, checkState') ->
    checks.configs checkState' = checks.configs checkState
    /\ (forall key,
          (forall i, i < length rules -> key <> (self, typ, i)) ->
          checks.statuses checkState' !! key = checks.statuses checkState !! key
          /\ checks.failureMsgs checkState' !! key = checks.failureMsgs checkState !! key
          /\ checks.failureRefs checkState' !! key = checks.failureRefs checkState !! key)
    /\ (checks.ConfigHasChecks checkState (addrs.ConfigCheckableOf self) = true ->
        forall i, i < length rules ->
                  is_Some (checks.statuses checkState' !! (self, typ, i))).
Proof.
  intros typ rules ctx checkState self keyData diagSeverity ds checkState'.
  unfold evalCheckRules.
  destruct (checks.ConfigHasChecks checkState (addrs.ConfigCheckableOf self)); simpl.
  2:{ case_bool_decide; simpl; [|discriminate]. intros [= <- <-]. done. }
  case_bool_decide as Hlen.
  { intros [= <- <-]. split; [done|]. split; [done|]. intros _ i Hi. lia. }
  destruct (tfdiags.ToHCL diagSeverity) as [severity|]; [|discriminate].
  intros Hrun.
  destruct (evalCheckRulesFrom_frame _ _ _ _ _ _ _ _ _ _ _ Hrun) as (Hcfg & Hkeep).
  split; [exact Hcfg|]. split; [exact Hkeep|].
  intros _ i Hi.
  destruct rules as [|rule0 rest]; [done|].
  assert (Hfit : selfFits typ self = true).
  { simpl in Hrun.
    destruct (evalCheckRule typ rule0 ctx self keyData severity) as [r|] eqn:Hr;
      [|discriminate].
    eapply evalCheckRule_fits. exact Hr. }
  destruct (evalCheckRulesFrom_reports typ ctx self keyData severity Hfit
              (rule0 :: rest) 0 [] checkState) as (ds0 & st0 & Hrun0 & Hrep & _).
  rewrite Hrun in Hrun0. injection Hrun0 as <- <-.
  destruct (lookup_lt_is_Some_2 (rule0 :: rest) i Hi) as [rule Hrule].
  destruct (evalCheckRule_returns typ rule ctx self keyData severity Hfit)
    as (result & rd & Hr).
  destruct (Hrep i rule result rd Hrule Hr) as [Hs _]. simpl in Hs.
  rewrite Hs. eauto.
Qed.

(** The theorem on the check block with a passing and a failing rule. *)
Lemma evalCheckRules_writes_own_rules_only_witness :
  exists ds checkState',
    evalCheckRules addrs.CheckAssertion [passing; failing] emptyContext healthState
      healthCheck noRepetition tfdiags.Error = Returns (ds, checkState')
    /\ checks.configs checkState' = checks.configs healthState
    /\ checks.statuses checkState' !! (healthCheck, addrs.CheckAssertion, 2) = None.
Proof.
  destruct (evalCheckRules addrs.CheckAssertion [passing; failing] emptyContext healthState
              healthCheck noRepetition tfdiags.Error) as [[ds st']|] eqn:Hrun;
    [|discriminate Hrun].
  destruct (evalCheckRules_writes_own_rules_only _ _ _ _ _ _ _ _ _ Hrun)
    as (Hcfg & Hkeep & _).
  exists ds, st'. split; [reflexivity|]. split; [exact Hcfg|].
  destruct (Hkeep (healthCheck, addrs.CheckAssertion, 2)) as [Hs _].
  - intros i Hi [= <-]. simpl in Hi. lia.
  - rewrite Hs. reflexivity.
Defined.

Lemma evalCheckRule_same_result typ rule ctx self keyData severity severity'
    result diags result' diags' :
  evalCheckRule typ rule ctx self keyData severity = Returns (result, diags) ->
  evalCheckRule typ rule ctx self keyData severity' = Returns (result', diags') ->
  result = result'.
Proof.
  unfold evalCheckRule.
  destruct (validateCheckRule typ rule ctx self keyData) as [[validation vdiags]|];
    [|discriminate].
  destruct (Value (configs.Condition rule) (Ctx validation)) as [resultVal hd].
  repeat case_match; intros [= <- <-] [= <- <-]; reflexivity.
Qed.

Lemma evalCheckRulesFrom_same_state typ ctx self keyData severity severity' :
  forall rules k diags diags' st ds ds' st1 st2,
    evalCheckRulesFrom typ k rules ctx self keyData severity diags st = Returns (ds, st1) ->
    evalCheckRulesFrom typ k rules ctx self keyData severity' diags' st = Returns (ds', st2) ->
    st1 = st2.
Proof.
  induction rules as [|rule rest IH]; intros k diags diags' st ds ds' st1 st2.
  - simpl. by intros [= <- <-] [= <- <-].
  - simpl.
    destruct (evalCheckRule typ rule ctx self keyData severity) as [[result rd]|] eqn:Hr;
      [|discriminate].
    destruct (evalCheckRule typ rule ctx self keyData severity') as [[result' rd']|] eqn:Hr';
      [|discriminate].
    rewrite <- (evalCheckRule_same_result _ _ _ _ _ _ _ _ _ _ _ Hr Hr').
    apply IH.
Qed.

(** X12. The diagnostics [evalCheckRules] returns hold an error exactly
    when the table it leaves records, for one of the rules, the status
    error, or the status fail while the caller asked for errors. With
    warnings asked for, failed conditions alone never make an error. *)
Theorem evalCheckRules_errors_iff_recorded :
  forall typ rules ctx checkState self keyData diagSeverity ds checkState',
    evalCheckRules typ rules ctx checkState self keyData diagSeverity
      = Returns (ds, checkState') ->
    (tfdiags.HasErrors ds = true
     <-> exists i, i < length rules
           /\ (checks.statuses checkState' !! (self, typ, i) = Some checks.StatusError
               \/ (diagSeverity = tfdiags.Error
                   /\ checks.statuses checkState' !! (self, typ, i)
                        = Some checks.StatusFail))).
Proof.
  intros typ rules ctx checkState self keyData diagSeverity ds checkState'.
  unfold evalCheckRules.
  destruct (checks.ConfigHasChecks checkState (addrs.ConfigCheckableOf self)); simpl.
  2:{ case_bool_decide as Hlen; simpl; [|discriminate]. intros [= <- <-].
      split; [done|]. intros (i & Hi & _). lia. }
  case_bool_decide as Hlen.
  { intros [= <- <-]. split; [done|]. intros (i & Hi & _). lia. }
  destruct (tfdiags.ToHCL diagSeverity) as [severity|] eqn:Hsev; [|discriminate].
  intros Hrun.
  assert (Hfit : selfFits typ self = true).
  { destruct rules as [|rule0 rest]; [done|]. simpl in Hrun.
    destruct (evalCheckRule typ rule0 ctx self keyData severity) as [r|] eqn:Hr;
      [|discriminate].
    eapply evalCheckRule_fits. exact Hr. }
  destruct (evalCheckRulesFrom_reports typ ctx self keyData severity Hfit
              rules 0 [] checkState) as (ds0 & st0 & Hrun0 & Hrep & _).
  rewrite Hrun in Hrun0. injection Hrun0 as <- <-.
  rewrite (evalCheckRulesFrom_errors _ _ _ _ _ _ _ _ _ _ _ Hrun).
  assert (Hwarn : severity <> hcl.DiagWarning <-> diagSeverity = tfdiags.Error).
  { destruct diagSeverity; simpl in Hsev; try discriminate;
      injection Hsev as <-; split; done. }
  split.
  - intros [Hnil | (j & rule & result & rd & Hj & Hr & He)]; [done|].
    exists j. split; [by eapply lookup_lt_Some|].
    destruct (Hrep j rule result rd Hj Hr) as [Hs _]. simpl in Hs. rewrite Hs.
    apply (evalCheckRule_errors_by_status _ _ _ _ _ _ _ _ Hr) in He
      as [-> | [-> Hne]]; [by left|].
    right. split; [by apply Hwarn | done].
  - intros (i & Hi & Hstatus). right.
    destruct (lookup_lt_is_Some_2 rules i Hi) as [rule Hrule].
    destruct (evalCheckRule_returns typ rule ctx self keyData severity Hfit)
      as (result & rd & Hr).
    exists i, rule, result, rd. split; [done|]. split; [done|].
    destruct (Hrep i rule result rd Hrule Hr) as [Hs _]. simpl in Hs. rewrite Hs in Hstatus.
    apply (evalCheckRule_errors_by_status _ _ _ _ _ _ _ _ Hr).
    destruct Hstatus as [[= ->] | [Hd [= ->]]]; [by left|].
    right. split; [done | by apply Hwarn].
Qed.

(** The theorem on the check block with a passing and a failing rule, with
    warnings asked for: the failure is recorded and no error is returned. *)
Lemma evalCheckRules_errors_iff_recorded_witness :
  exists ds checkState',
    evalCheckRules addrs.CheckAssertion [passing; failing] emptyContext healthState
      healthCheck noRepetition tfdiags.Warning = Returns (ds, checkState')
    /\ tfdiags.HasErrors ds = false
    /\ (tfdiags.HasErrors ds = true
        <-> exists i, i < 2
              /\ (checks.statuses checkState' !! (healthCheck, addrs.CheckAssertion, i)
                    = Some checks.StatusError
                  \/ (tfdiags.Warning = tfdiags.Error
                      /\ checks.statuses checkState' !! (healthCheck, addrs.CheckAssertion, i)
                           = Some checks.StatusFail))).
Proof.
  destruct (evalCheckRules addrs.CheckAssertion [passing; failing] emptyContext healthState
              healthCheck noRepetition tfdiags.Warning) as [[ds st']|] eqn:Hrun;
    [|discriminate Hrun].
  assert (Hds : match evalCheckRules addrs.CheckAssertion [passing; failing] emptyContext
                        healthState healthCheck noRepetition tfdiags.Warning with
                | Returns (ds, _) => tfdiags.HasErrors ds
                | Panics _ => true
                end = false) by reflexivity.
  rewrite Hrun in Hds.
  exists ds, st'. split; [reflexivity|]. split.
  - exact Hds.
  - exact (evalCheckRules_errors_iff_recorded _ _ _ _ _ _ _ _ _ Hrun).
Defined.

(** X13. The table [evalCheckRules] leaves does not depend on the
    severity: asking for warnings instead of errors, as the relaxed planning
    modes do, records the same statuses, messages and references. *)
Theorem evalCheckRules_state_independent_of_severity :
  forall typ rules ctx checkState self keyData diagSeverity diagSeverity' ds ds' st1 st2,
    evalCheckRules typ rules ctx checkState self keyData diagSeverity = Returns (ds, st1) ->
    evalCheckRules typ rules ctx checkState self keyData diagSeverity' = Returns (ds', st2) ->
    st1 = st2.
Proof.
  intros typ rules ctx checkState self keyData diagSeverity diagSeverity' ds ds' st1 st2.
  unfold evalCheckRules.
  destruct (checks.ConfigHasChecks checkState (addrs.ConfigCheckableOf self)); simpl.
  2:{ case_bool_decide; simpl; [|discriminate]. by intros [= <- <-] [= <- <-]. }
  case_bool_decide; [by intros [= <- <-] [= <- <-]|].
  destruct (tfdiags.ToHCL diagSeverity) as [severity|]; [|discriminate].
  destruct (tfdiags.ToHCL diagSeverity') as [severity'|]; [|discriminate].
  apply evalCheckRulesFrom_same_state.
Qed.

(** The theorem on the check block with a passing and a failing rule. *)
Lemma evalCheckRules_state_independent_of_severity_witness :
  exists ds ds' checkState',
    evalCheckRules addrs.CheckAssertion [passing; failing] emptyContext healthState
      healthCheck noRepetition tfdiags.Error = Returns (ds, checkState')
    /\ evalCheckRules addrs.CheckAssertion [passing; failing] emptyContext healthState
         healthCheck noRepetition tfdiags.Warning = Returns (ds', checkState').
Proof.
  destruct (evalCheckRules addrs.CheckAssertion [passing; failing] emptyContext healthState
              healthCheck noRepetition tfdiags.Error) as [[ds st1]|] eqn:Hrun;
    [|discriminate Hrun].
  destruct (evalCheckRules addrs.CheckAssertion [passing; failing] emptyContext healthState
              healthCheck noRepetition tfdiags.Warning) as [[ds' st2]|] eqn:Hrun';
    [|discriminate Hrun'].
  rewrite <- (evalCheckRules_state_independent_of_severity _ _ _ _ _ _ _ _ _ _ _ _
                Hrun Hrun').
  exists ds, ds', st1. split; reflexivity.
Defined.
End ConditionMore.


(* ===================================================================== *)
(** * Further properties of the planned changes *)
(* ===================================================================== *)

Section StackplanMore.
Import Stackplan.
Import Stackplan.PlannedChangeResourceInstancePlanned.
Context `{Encoders}.

(** X14. A planned resource instance change that encodes emits exactly one
    raw record, and one description exactly when it has a [ChangeSrc]: a
    change that only brings the state up to date with its prior state is
    recorded for apply but not described. *)
Theorem resource_instance_described_iff_change :
  forall (pc : PlannedChangeResourceInstancePlanned.t) out,
    PlannedChangeProto pc = Ok out ->
    length (terraform1.PlannedChange.Raw out) = 1
    /\ (ChangeSrc pc = None -> terraform1.PlannedChange.Descriptions out = [])
    /\ (forall src, ChangeSrc pc = Some src ->
        exists r,
          terraform1.PlannedChange.Descriptions out = [terraform1.ResourceInstancePlanned r]).
Proof.
  intros pc out. unfold PlannedChangeProto.
  destruct (PlanResourceInstanceChangePlannedProto pc) as [pric|]; [|discriminate].
  destruct (MarshalFrom _) as [raw|]; [|discriminate].
  destruct (ChangeSrc pc) as [src|] eqn:Hsrc.
  - destruct (ChangeDescription pc) as [desc|] eqn:Hdesc; [|discriminate].
    destruct (ChangeDescription_some _ _ _ Hsrc Hdesc) as (r & ->).
    intros [= <-]. simpl. split; [done|]. split; [done|]. eauto.
  - rewrite (ChangeDescription_nil _ Hsrc).
    destruct (PriorStateSrc pc); intros [= <-]; simpl; done.
Qed.

(** X15. When the change or the prior state is present and the change
    cannot be converted, both the plain and the deferred resource instance
    change fail with the converter's error behind the prefix
    "converting resource instance change to proto: ", for every deferral
    reason, and no event is produced. *)
Theorem change_conversion_error_is_wrapped :
  forall (pc : PlannedChangeResourceInstancePlanned.t) err reason,
    (ChangeSrc pc <> None \/ PriorStateSrc pc <> None) ->
    ResourceChangeToProto (ChangeSrc pc) = Err err ->
    PlannedChangeProto pc
      = Err ("converting resource instance change to proto: " +:+ err)
    /\ DeferredPlannedChangeProto
         {| ResourceInstancePlanned := pc; DeferredReason_ := reason |}
       = Err ("converting resource instance change to proto: " +:+ err).
Proof.
  intros pc err reason Hpresent Herr.
  assert (Hproto : PlanResourceInstanceChangePlannedProto pc
                   = Err ("converting resource instance change to proto: " +:+ err)).
  { unfold PlanResourceInstanceChangePlannedProto. rewrite Herr.
    destruct (ChangeSrc pc), (PriorStateSrc pc); try reflexivity.
    destruct Hpresent; done. }
  unfold PlannedChangeProto, DeferredPlannedChangeProto. simpl.
  rewrite Hproto. done.
Qed.

(** X16. The description of a resource instance change reports a move
    exactly when the address differs from the one of the previous run, and
    then names that previous address within the same component; it reports
    an import exactly when the change is importing, with the same id and
    unknown flag; and its replace paths are the encoded paths of
    [RequiredReplace], one for each path of the set. *)
Theorem ChangeDescription_moved_imported_replace :
  forall (pc : PlannedChangeResourceInstancePlanned.t) src r,
    ChangeSrc pc = Some src ->
    ChangeDescription pc = Ok (Some (terraform1.ResourceInstancePlanned r)) ->
    (terraform1.PlannedChange_ResourceInstance.Moved r = None
       <-> ResourceInstanceChangeSrc.Addr src = ResourceInstanceChangeSrc.PrevRunAddr src)
    /\ (forall moved, terraform1.PlannedChange_ResourceInstance.Moved r = Some moved ->
        terraform1.PrevAddr moved
        = NewResourceInstanceInStackAddr
            {| stackaddrs.AbsResourceInstance.Component :=
                 stackaddrs.AbsResourceInstanceObject.Component
                   (ResourceInstanceObjectAddr pc);
               stackaddrs.AbsResourceInstance.Item :=
                 ResourceInstanceChangeSrc.PrevRunAddr src |})
    /\ terraform1.PlannedChange_ResourceInstance.Imported r
       = (fun importing =>
            {| terraform1.ImportId := ImportingSrc.ID importing;
               terraform1.Unknown := ImportingSrc.Unknown importing |})
         <$> ResourceInstanceChangeSrc.Importing src
    /\ length (terraform1.PlannedChange_ResourceInstance.ReplacePaths r)
       = size (ResourceInstanceChangeSrc.RequiredReplace src)
    /\ (forall path, path ∈ ResourceInstanceChangeSrc.RequiredReplace src ->
        NewAttributePath path ∈ terraform1.PlannedChange_ResourceInstance.ReplacePaths r).
Proof.
  intros pc src r Hsrc. unfold ChangeDescription. rewrite Hsrc.
  destruct (ChangeTypesForPlanAction _) as [types|]; [|discriminate].
  assert (Hpaths : exists paths,
            encodePathSet (ResourceInstanceChangeSrc.RequiredReplace src) = Ok paths
            /\ length paths = size (ResourceInstanceChangeSrc.RequiredReplace src)
            /\ forall path, path ∈ ResourceInstanceChangeSrc.RequiredReplace src ->
                            NewAttributePath path ∈ paths).
  { unfold encodePathSet, cty.Empty, cty.List.
    case_bool_decide as Hempty.
    - exists []. rewrite Hempty. split; [done|]. split; [done|]. set_solver.
    - eexists. split; [reflexivity|]. split.
      + by rewrite length_map.
      + intros path Hin. apply list_elem_of_In, in_map, list_elem_of_In.
        by apply elem_of_elements. }
  destruct Hpaths as (paths & -> & Hlen & Hin).
  intros [= <-]. simpl. split; [|split; [|split; [|split]]].
  - unfold ResourceInstanceChangeSrc.Moved. case_bool_decide; simpl; split; done.
  - unfold ResourceInstanceChangeSrc.Moved. case_bool_decide; simpl; [done|].
    by intros moved [= <-].
  - by destruct (ResourceInstanceChangeSrc.Importing src).
  - exact Hlen.
  - exact Hin.
Qed.

(** X17. The description of a deferred change embeds exactly the summary
    the plain change emits: when both encodings succeed, the resource
    instance summary of the deferred description is the description of the
    plain event if it has one and is empty otherwise, and the reason is
    [EncodeDeferred] of the deferral reason. *)
Theorem deferred_embeds_plain_description :
  forall (pc : PlannedChangeResourceInstancePlanned.t) reason out out',
    PlannedChangeProto pc = Ok out ->
    DeferredPlannedChangeProto
      {| ResourceInstancePlanned := pc; DeferredReason_ := reason |} = Ok out' ->
    terraform1.PlannedChange.Descriptions out'
    = [terraform1.ResourceInstanceDeferred
         {| terraform1.PlannedChange_ResourceInstanceDeferred.ResourceInstance :=
              terraform1.GetResourceInstancePlanned
                (head (terraform1.PlannedChange.Descriptions out));
            terraform1.PlannedChange_ResourceInstanceDeferred.Deferred :=
              EncodeDeferred reason |}].
Proof.
  intros pc reason out out'. unfold PlannedChangeProto, DeferredPlannedChangeProto. simpl.
  destruct (PlanResourceInstanceChangePlannedProto pc) as [pric|]; [|discriminate].
  destruct (DeferredReasonToProto reason) as [code ignored].
  destruct (MarshalFrom (tfstackdata1.MPlanResourceInstanceChangePlanned pric)) as [raw|];
    [|discriminate].
  destruct (MarshalFrom (deferredMessage pric code)) as [raw'|]; [|discriminate].
  destruct (ChangeSrc pc) as [src|] eqn:Hsrc.
  - destruct (ChangeDescription pc) as [[desc|]|]; try discriminate;
      intros [= <-] [= <-]; reflexivity.
  - rewrite (ChangeDescription_nil _ Hsrc).
    destruct (PriorStateSrc pc); intros [= <-] [= <-]; reflexivity.
Qed.
End StackplanMore.

Section StackplanMoreWitnesses.
Import Stackplan.

(** X14 on the moved server. *)
Lemma resource_instance_described_iff_change_witness :
  exists out r,
    @PlannedChangeProto wireReasons wireEncoders StackplanInputs.movedServerPlanned = Ok out
    /\ length (terraform1.PlannedChange.Raw out) = 1
    /\ terraform1.PlannedChange.Descriptions out = [terraform1.ResourceInstancePlanned r].
Proof.
  destruct (@PlannedChangeProto wireReasons wireEncoders StackplanInputs.movedServerPlanned)
    as [out|] eqn:Hrun; [|discriminate Hrun].
  destruct (@resource_instance_described_iff_change wireReasons wireEncoders
              StackplanInputs.movedServerPlanned out Hrun) as (Hraw & _ & Hdesc).
  destruct (Hdesc StackplanInputs.movedServer eq_refl) as [r Hr].
  exists out, r. repeat split; assumption.
Defined.

(** X15 on the moved server, with encoders that reject every change. *)
Lemma change_conversion_error_is_wrapped_witness :
  @PlannedChangeProto wireReasons StackplanInputs.rejectingEncoders StackplanInputs.movedServerPlanned
    = Err "converting resource instance change to proto: unsupported change"
  /\ @DeferredPlannedChangeProto wireReasons StackplanInputs.rejectingEncoders
       {| ResourceInstancePlanned := StackplanInputs.movedServerPlanned;
          DeferredReason_ := ("absent_prereq" : @DeferredReason wireReasons) |}
     = Err "converting resource instance change to proto: unsupported change".
Proof.
  apply (@change_conversion_error_is_wrapped wireReasons StackplanInputs.rejectingEncoders
           StackplanInputs.movedServerPlanned "unsupported change"
           ("absent_prereq" : @DeferredReason wireReasons)).
  - left. discriminate.
  - reflexivity.
Defined.

(** X16 on the moved server: a move, an import and one replace path. *)
Lemma ChangeDescription_moved_imported_replace_witness :
  exists r,
    @ChangeDescription wireReasons wireEncoders StackplanInputs.movedServerPlanned
      = Ok (Some (terraform1.ResourceInstancePlanned r))
    /\ terraform1.PlannedChange_ResourceInstance.Imported r
       = Some {| terraform1.ImportId := "i-0abc"; terraform1.Unknown := false |}
    /\ length (terraform1.PlannedChange_ResourceInstance.ReplacePaths r) = 1.
Proof.
  destruct (@ChangeDescription wireReasons wireEncoders StackplanInputs.movedServerPlanned)
    as [[[r| |]|]|] eqn:Hrun; try discriminate Hrun.
  destruct (@ChangeDescription_moved_imported_replace wireReasons wireEncoders
              StackplanInputs.movedServerPlanned StackplanInputs.movedServer r eq_refl Hrun)
    as (_ & _ & Himp & Hlen & _).
  exists r. split; [reflexivity|]. split; [exact Himp|]. rewrite Hlen. reflexivity.
Defined.

(** X17 on the moved server, deferred because a prerequisite is absent. *)
Lemma deferred_embeds_plain_description_witness :
  exists out out',
    @PlannedChangeProto wireReasons wireEncoders StackplanInputs.movedServerPlanned = Ok out
    /\ @DeferredPlannedChangeProto wireReasons wireEncoders
         {| ResourceInstancePlanned := StackplanInputs.movedServerPlanned;
            DeferredReason_ := ("absent_prereq" : @DeferredReason wireReasons) |} = Ok out'
    /\ terraform1.PlannedChange.Descriptions out'
       = [terraform1.ResourceInstanceDeferred
            {| terraform1.PlannedChange_ResourceInstanceDeferred.ResourceInstance :=
                 terraform1.GetResourceInstancePlanned
                   (head (terraform1.PlannedChange.Descriptions out));
               terraform1.PlannedChange_ResourceInstanceDeferred.Deferred :=
                 @EncodeDeferred wireReasons
                   ("absent_prereq" : @DeferredReason wireReasons) |}].
Proof.
  destruct (@PlannedChangeProto wireReasons wireEncoders StackplanInputs.movedServerPlanned)
    as [out|] eqn:Hrun; [|discriminate Hrun].
  destruct (@DeferredPlannedChangeProto wireReasons wireEncoders
              {| ResourceInstancePlanned := StackplanInputs.movedServerPlanned;
                 DeferredReason_ := ("absent_prereq" : @DeferredReason wireReasons) |})
    as [out'|] eqn:Hrun'; [|discriminate Hrun'].
  exists out, out'. split; [reflexivity|]. split; [reflexivity|].
  exact (@deferred_embeds_plain_description wireReasons wireEncoders StackplanInputs.movedServerPlanned
           ("absent_prereq" : @DeferredReason wireReasons) out out' Hrun Hrun').
Defined.
End StackplanMoreWitnesses.

Section StackplanInputsMore.
Import Stackplan StackplanInputs.
Context `{InputEncoders}.

(** X18. A root input value that encodes emits exactly one raw record and
    a description, naming the variable, exactly when the value is required
    on apply. The record of an ephemeral variable, whose value is nil,
    carries no value; any other record carries the encoded value. *)
Theorem root_input_value_event :
  forall (pc : PlannedChangeRootInputValue) out,
    RootInputValuePlannedChangeProto pc = Ok out ->
    (terraform1.PlannedChange.Descriptions out
     = if RequiredOnApply pc then [{| terraform1.Name := stackaddrs.Name (Addr pc) |}]
       else [])
    /\ exists raw ppdv,
         terraform1.PlannedChange.Raw out = [raw]
         /\ MarshalRootInputValue
              {| tfstackdata1.PlanRootInputValue.Name := stackaddrs.Name (Addr pc);
                 tfstackdata1.PlanRootInputValue.Value := ppdv;
                 tfstackdata1.PlanRootInputValue.RequiredOnApply := RequiredOnApply pc |}
            = Ok raw
         /\ (Value pc = None -> ppdv = None)
         /\ (forall value, Value pc = Some value ->
             exists dv, NewPlanDynamicValue value = Ok dv /\ ppdv = Some dv).
Proof.
  intros pc out. unfold RootInputValuePlannedChangeProto.
  destruct (Value pc) as [value|].
  - destruct (NewPlanDynamicValue value) as [dv|] eqn:Hdv; [|discriminate].
    destruct (MarshalRootInputValue _) as [raw|] eqn:Hraw; [|discriminate].
    intros [= <-]. simpl. split; [done|].
    exists raw, (Some dv). split; [done|]. split; [exact Hraw|]. split; [done|].
    intros value' [= <-]. eauto.
  - destruct (MarshalRootInputValue _) as [raw|] eqn:Hraw; [|discriminate].
    intros [= <-]. simpl. split; [done|].
    exists raw, None. split; [done|]. split; [exact Hraw|]. split; done.
Qed.

(** X19. A value that cannot be encoded aborts the event with the error
    "can't encode value for <address>: <cause>", required on apply or not,
    while an ephemeral variable never fails for its value: its event
    succeeds exactly when its record, without a value, can be wrapped. *)
Theorem root_input_value_encoding_failure :
  forall (pc : PlannedChangeRootInputValue),
    (forall value err,
       Value pc = Some value ->
       NewPlanDynamicValue value = Err err ->
       RootInputValuePlannedChangeProto pc
       = Err ("can't encode value for " +:+ InputVariableString (Addr pc) +:+ ": " +:+ err))
    /\ (Value pc = None ->
        is_ok (RootInputValuePlannedChangeProto pc)
        = is_ok (MarshalRootInputValue (rootInputMessage pc None))).
Proof.
  intros pc. unfold RootInputValuePlannedChangeProto. split.
  - intros value err -> ->. reflexivity.
  - intros ->. by destruct (MarshalRootInputValue _).
Qed.
End StackplanInputsMore.

Section StackplanInputsWitnesses.
Import Stackplan StackplanInputs.

(** X18 on an ephemeral variable that must be supplied again on apply. *)
Lemma root_input_value_event_witness :
  exists out,
    @RootInputValuePlannedChangeProto wireInputEncoders
      {| Addr := {| stackaddrs.Name := "token" |};
         Value := None;
         RequiredOnApply := true |} = Ok out
    /\ terraform1.PlannedChange.Descriptions out = [{| terraform1.Name := "token" |}].
Proof.
  destruct (@RootInputValuePlannedChangeProto wireInputEncoders
              {| Addr := {| stackaddrs.Name := "token" |};
                 Value := None;
                 RequiredOnApply := true |}) as [out|] eqn:Hrun; [|discriminate Hrun].
  destruct (@root_input_value_event wireInputEncoders _ out Hrun) as [Hdesc _].
  exists out. split; [reflexivity | exact Hdesc].
Defined.

(** X19 on a variable whose value is an object the encoder rejects. *)
Lemma root_input_value_encoding_failure_witness :
  @RootInputValuePlannedChangeProto wireInputEncoders
    {| Addr := {| stackaddrs.Name := "settings" |};
       Value := Some {| Conditions.cty.raw := Conditions.cty.RStructural "object";
                        Conditions.cty.marks := ∅ |};
       RequiredOnApply := true |}
  = Err "can't encode value for var.settings: unsupported type object".
Proof.
  destruct (@root_input_value_encoding_failure wireInputEncoders
              {| Addr := {| stackaddrs.Name := "settings" |};
                 Value := Some {| Conditions.cty.raw := Conditions.cty.RStructural "object";
                                  Conditions.cty.marks := ∅ |};
                 RequiredOnApply := true |}) as [Hfail _].
  apply (Hfail {| Conditions.cty.raw := Conditions.cty.RStructural "object";
                  Conditions.cty.marks := ∅ |} "unsupported type object");
    reflexivity.
Defined.
End StackplanInputsWitnesses.
